(** * Binance P2P rate aggregator

    A shallow embedding of [src/binance_p2p_python.py]: the HTTP helper
    [fetch_with_timeout], the nested coroutine [fetch_trade_type_average],
    the entry point [get_binance_p2p_rate] and [main].

    Python floats are IEEE 754 binary64 numbers, modelled by Rocq's primitive
    floats.  Decoded JSON documents are values of the type [value].  The
    network is an oracle that answers each request with a decoded document or
    with an exception; everything printed is collected in a log.  The world
    also fixes which of the two concurrent tasks completes first and which
    summation the interpreter's [sum] performs. *)

From Stdlib Require Import ZArith QArith List Bool String Ascii Lia Permutation.
From Stdlib Require Import Uint63 PrimFloat SpecFloat FloatOps.
Import ListNotations.

Open Scope Z_scope.
Set Warnings "-register-all".

(** ** Exceptions and outcomes *)

(** The exception classes the program can meet.  The last three derive from
    [BaseException] only, so that a clause [except Exception] lets them
    through. *)
Inductive exn : Type :=
| ClientError
| TimeoutError
| JSONDecodeError
| AttributeError
| TypeError
| KeyError
| ValueError
| OverflowError
| ZeroDivisionError
| RuntimeError
| CancelledError
| KeyboardInterrupt
| SystemExit.

Definition is_Exception (e : exn) : bool :=
  match e with
  | CancelledError | KeyboardInterrupt | SystemExit => false
  | _ => true
  end.

Inductive outcome (A : Type) : Type :=
| Return (a : A)
| Raise (e : exn).

Arguments Return {A} a.
Arguments Raise {A} e.

Definition obind {A B : Type} (o : outcome A) (k : A -> outcome B) : outcome B :=
  match o with
  | Return a => k a
  | Raise e => Raise e
  end.

(** The elements of a list comprehension are evaluated from left to right and
    the first exception ends the evaluation. *)
Fixpoint omap {A B : Type} (f : A -> outcome B) (l : list A) : outcome (list B) :=
  match l with
  | [] => Return []
  | a :: l' => obind (f a) (fun b => obind (omap f l') (fun bs => Return (b :: bs)))
  end.

(** ** Python values *)

(** What [json.loads] can produce. A [dict] is kept as an association list
    with distinct keys, in insertion order. Characters are code points below
    256. *)
Inductive value : Type :=
| VNone
| VBool (b : bool)
| VInt (z : Z)
| VFloat (f : float)
| VStr (s : string)
| VList (l : list value)
| VDict (d : list (string * value)).

Fixpoint lookup {A : Type} (k : string) (d : list (string * A)) : option A :=
  match d with
  | [] => None
  | (k', v) :: d' => if String.eqb k k' then Some v else lookup k d'
  end.

(** [bool(x)] for a float: every float except the two zeros is true. *)
Definition truthy_float (f : float) : bool := negb (PrimFloat.eqb f zero).

Definition truthy (v : value) : bool :=
  match v with
  | VNone => false
  | VBool b => b
  | VInt z => negb (z =? 0)
  | VFloat f => truthy_float f
  | VStr s => negb (String.eqb s EmptyString)
  | VList l => match l with [] => false | _ => true end
  | VDict d => match d with [] => false | _ => true end
  end.

(** [bool(x)] for an [Optional[float]]. *)
Definition truthy_opt (o : option float) : bool :=
  match o with
  | None => false
  | Some f => truthy_float f
  end.

(** [x.get(key, default)]: only a [dict] has the method. *)
Definition get_default (x : value) (key : string) (default : value) : outcome value :=
  match x with
  | VDict d => Return (match lookup key d with Some v => v | None => default end)
  | _ => Raise AttributeError
  end.

(** [x.get(key)] *)
Definition get (x : value) (key : string) : outcome value := get_default x key VNone.

(** [x[key]] for a string [key]. *)
Definition subscript (x : value) (key : string) : outcome value :=
  match x with
  | VDict d => match lookup key d with Some v => Return v | None => Raise KeyError end
  | _ => Raise TypeError
  end.

(** [len(x)] *)
Definition len (x : value) : outcome Z :=
  match x with
  | VStr s => Return (Z.of_nat (String.length s))
  | VList l => Return (Z.of_nat (List.length l))
  | VDict d => Return (Z.of_nat (List.length d))
  | _ => Raise TypeError
  end.

(** The elements [for ad in x] runs through: the items of a list, the
    characters of a string, the keys of a dict. *)
Definition iter (x : value) : outcome (list value) :=
  match x with
  | VList l => Return l
  | VStr s => Return (map (fun c => VStr (String c EmptyString)) (list_ascii_of_string s))
  | VDict d => Return (map (fun kv => VStr (fst kv)) d)
  | _ => Raise TypeError
  end.

(** [x == s] for a string literal [s]. *)
Definition eq_str (x : value) (s : string) : bool :=
  match x with
  | VStr s' => String.eqb s' s
  | _ => false
  end.

(** [x == True]: [bool] is a subclass of [int], so the numbers equal to one
    compare equal to [True] as well. *)
Definition eq_True (x : value) : bool :=
  match x with
  | VBool b => b
  | VInt z => z =? 1
  | VFloat f => PrimFloat.eqb f one
  | _ => false
  end.

(** ** Numbers *)

(** The binary64 number nearest to [n / d] (ties to even), with sign [s]. *)
Definition nearest_float (s : bool) (n d : Z) : float :=
  match n, d with
  | Zpos pn, Zpos pd =>
      SF2Prim (SFdiv prec emax (S754_finite s pn 0) (S754_finite false pd 0))
  | _, _ => SF2Prim (S754_zero s)
  end.

(** [float(z)] for an [int]: the nearest binary64 number, or [OverflowError]. *)
Definition float_of_int (z : Z) : outcome float :=
  match binary_normalize prec emax z 0 false with
  | S754_infinity _ => Raise OverflowError
  | f => Return (SF2Prim f)
  end.

(** The integer nearest to [n / d], ties to the even one ([0 < d]). *)
Definition round_half_even (n d : Z) : Z :=
  let q := n / d in
  let r := n mod d in
  match 2 * r ?= d with
  | Lt => q
  | Gt => q + 1
  | Eq => if Z.even q then q else q + 1
  end.

(** [round(x, ndigits)] for a float and [0 <= ndigits]: the exact value of
    [x] is rounded to [ndigits] decimals, ties to even, and the decimal
    obtained is converted back to the nearest float. Zeros, infinities and
    NaN are returned unchanged. *)
Definition py_round (x : float) (ndigits : Z) : float :=
  match Prim2SF x with
  | S754_finite s m e =>
      let scale := 10 ^ ndigits in
      let k := if 0 <=? e then Zpos m * 2 ^ e * scale
               else round_half_even (Zpos m * scale) (2 ^ (- e)) in
      nearest_float s k scale
  | _ => x
  end.

(** [sum(prices)] up to CPython 3.11: the items are added from left to
    right, starting from zero. *)
Definition py_sum_plain (prices : list float) : float :=
  fold_left PrimFloat.add prices zero.

(** [sum(prices)] from CPython 3.12 on: the first item is added to the
    integer zero; from then on the interpreter carries, beside the running
    sum, a correction for the rounding errors of the additions (Neumaier),
    and adds it at the end when it is finite and not zero. *)
Definition compensated_step (st : float * float) (x : float) : float * float :=
  let (f, c) := st in
  let t := PrimFloat.add f x in
  (t, if PrimFloat.leb (PrimFloat.abs x) (PrimFloat.abs f)
      then PrimFloat.add c (PrimFloat.add (PrimFloat.sub f t) x)
      else PrimFloat.add c (PrimFloat.add (PrimFloat.sub x t) f)).

Definition py_sum_compensated (prices : list float) : float :=
  match prices with
  | [] => zero
  | p :: rest =>
      let (f, c) := fold_left compensated_step rest (PrimFloat.add zero p, zero) in
      if (negb (PrimFloat.eqb c zero) && negb (is_nan c) && negb (is_infinity c))%bool
      then PrimFloat.add f c else f
  end.

(** [sum(prices)], by the interpreter that runs the program. *)
Definition py_sum (compensated : bool) (prices : list float) : float :=
  if compensated then py_sum_compensated prices else py_sum_plain prices.

(** [float(n)] for the length of a list: lengths are below [2^63], where the
    conversion cannot overflow. *)
Definition float_of_len (n : nat) : float :=
  PrimFloat.of_uint63 (Uint63.of_Z (Z.of_nat n)).

(** [x / n] for a float [x] and a length [n]. *)
Definition truediv (x : float) (n : nat) : outcome float :=
  match n with
  | O => Raise ZeroDivisionError
  | _ => Return (PrimFloat.div x (float_of_len n))
  end.

(** ** Strings *)

(** The method of a request is a Python string in full: a sequence of
    Unicode code points. *)
Definition ustr : Type := list N.

Fixpoint ustr_eqb (a b : ustr) : bool :=
  match a, b with
  | [], [] => true
  | x :: a', y :: b' => (N.eqb x y && ustr_eqb a' b')%bool
  | _, _ => false
  end.

(** The upper-case form of a character. The table has the letters a to z
    and every other character whose upper-case form in Unicode holds one of
    the letters P, O, S, T: sharp s (SS), long s (S), t with diaeresis (T and
    the combining diaeresis), and the ligatures long s t and st (ST). The
    upper-case form of any other character holds none of these letters, and
    the character stands for it here, which leaves every comparison with
    POST as it is in Python. *)
Definition upper_char (c : N) : ustr :=
  (if (97 <=? c) && (c <=? 122) then [c - 32]
   else if c =? 223 then [83; 83]
   else if c =? 383 then [83]
   else if c =? 7831 then [84; 776]
   else if (c =? 64261) || (c =? 64262) then [83; 84]
   else [c])%N%bool.

(** [s.upper()] *)
Definition upper (s : ustr) : ustr := flat_map upper_char s.

(** The strings POST and GET. *)
Definition POST : ustr := [80; 79; 83; 84]%N.

Definition GET : ustr := [71; 69; 84]%N.

(** The double quote character, as a string. *)
Definition dq : string := String (ascii_of_nat 34) EmptyString.

(** A plain decimal literal: an optional sign, digits, and optionally a point
    followed by digits. [float] accepts every such string and returns the
    nearest binary64 number. *)
Definition digit_of (c : ascii) : option Z :=
  let n := nat_of_ascii c in
  if (Nat.leb 48 n && Nat.leb n 57)%bool then Some (Z.of_nat (n - 48)) else None.

(** [digits acc s]: the number read from the digits of [s] after [acc], and
    what follows the digits; [count] is the number of digits read. *)
Fixpoint digits (acc : Z) (count : nat) (s : string) : Z * nat * string :=
  match s with
  | EmptyString => (acc, count, s)
  | String c s' =>
      match digit_of c with
      | Some d => digits (10 * acc + d) (S count) s'
      | None => (acc, count, s)
      end
  end.

Definition unsigned_decimal (s : string) : option (Z * Z) :=
  let '(i, ni, rest) := digits 0 0 s in
  match rest with
  | EmptyString => if Nat.eqb ni 0 then None else Some (i, 1)
  | String c frac =>
      if Ascii.eqb c "."%char then
        let '(n, nf, rest') := digits i 0 frac in
        match rest' with
        | EmptyString => if Nat.eqb (ni + nf) 0 then None else Some (n, 10 ^ Z.of_nat nf)
        | _ => None
        end
      else None
  end.

Definition decimal_float_of_str (s : string) : option float :=
  let '(sign, body) :=
    match s with
    | String c s' =>
        if Ascii.eqb c "-"%char then (true, s')
        else if Ascii.eqb c "+"%char then (false, s')
        else (false, s)
    | EmptyString => (false, s)
    end in
  match unsigned_decimal body with
  | Some (n, d) => Some (nearest_float sign n d)
  | None => None
  end.

(** ** The program *)

Inductive trade_type : Type := BUY | SELL.

Definition trade_type_str (t : trade_type) : string :=
  match t with
  | BUY => "BUY"
  | SELL => "SELL"
  end.

(** The dictionary the entry point returns. *)
Record rate_result : Type := {
  buy : option float;
  sell : option float;
  average : option float
}.

(** The lines the program prints. *)
Inductive line : Type :=
| ErrorTasa (t : trade_type) (error : exn)
| PromedioCompra (x : option float)
| PromedioVenta (x : option float)
| PromedioMercado (x : option float)
| SinPromedio
| ErrorGeneral (error : exn)
| Obteniendo
| ResultadoFinal
| Dump (result : option rate_result)
| NoSePudieron.

(** A computation prints lines and then returns or raises. *)
Definition M (A : Type) : Type := (list line * outcome A)%type.

Definition ret {A : Type} (a : A) : M A := ([], Return a).

Definition raise {A : Type} (e : exn) : M A := ([], Raise e).

Definition print (l : line) : M unit := ([l], Return tt).

Definition lift {A : Type} (o : outcome A) : M A := ([], o).

Definition bind {A B : Type} (m : M A) (k : A -> M B) : M B :=
  match m with
  | (l, Return a) => let (l', o) := k a in (l ++ l', o)
  | (l, Raise e) => (l, Raise e)
  end.

(** [try: body except Exception as error: handler(error)] *)
Definition try_except {A : Type} (body : M A) (handler : exn -> M A) : M A :=
  match body with
  | (l, Raise e) =>
      if is_Exception e then let (l', o) := handler e in (l ++ l', o)
      else (l, Raise e)
  | done => done
  end.

Definition printed {A : Type} (m : M A) : list line := fst m.

Definition result {A : Type} (m : M A) : outcome A := snd m.

Notation "x <- c ;; k" := (bind c (fun x => k))
  (at level 61, c at next level, right associativity).
Notation "c ;;; k" := (bind c (fun _ => k))
  (at level 61, right associativity).

(** One HTTP exchange, as [aiohttp] performs it. *)
Inductive request : Type :=
| Post (url : string) (headers : option (list (string * string))) (data : option string)
| Get (url : string) (headers : option (list (string * string))).

(** The world outside the program: [net timeout r] is what performing [r] in
    a session with the total timeout [timeout] and decoding the body as JSON
    gives; [loop_fault] is an exception the event loop raises on its own
    while the entry point awaits its two tasks; [sell_first] tells that the
    SELL task completes before the BUY task; [compensated_sum] tells that
    the interpreter is CPython 3.12 or later. *)
Record world : Type := {
  net : Z -> request -> outcome value;
  loop_fault : option exn;
  sell_first : bool;
  compensated_sum : bool
}.

Definition default_timeout : Z := 10.

Definition default_method : ustr := GET.

Definition url : string :=
  "https://p2p.binance.com/bapi/c2c/v2/friendly/c2c/adv/search".

Definition headers : list (string * string) :=
  [("Content-Type", "application/json");
   ("User-Agent", "Mozilla/5.0 (Windows NT 10.0; Win64; x64) AppleWebKit/537.36 (KHTML, like Gecko) Chrome/125.0.0.0 Safari/537.36")]%string.

(** [json.dumps(payload)] for the payload of a trade type. *)
Definition payload (t : trade_type) : string :=
  ("{" ++ dq ++ "fiat" ++ dq ++ ": " ++ dq ++ "VES" ++ dq ++ ", "
       ++ dq ++ "tradeType" ++ dq ++ ": " ++ dq ++ trade_type_str t ++ dq ++ ", "
       ++ dq ++ "asset" ++ dq ++ ": " ++ dq ++ "USDT" ++ dq ++ ", "
       ++ dq ++ "page" ++ dq ++ ": 1, "
       ++ dq ++ "rows" ++ dq ++ ": 10, "
       ++ dq ++ "merchantCheck" ++ dq ++ ": false}")%string.

Definition fetch_with_timeout (w : world) (url : string) (method : ustr)
    (headers : option (list (string * string))) (data : option string)
    (timeout : Z) : outcome value :=
  if ustr_eqb (upper method) POST then net w timeout (Post url headers data)
  else net w timeout (Get url headers).

(** The request a directional fetch sends. *)
Definition request_of (t : trade_type) : request :=
  Post url (Some headers) (Some (payload t)).

(** The lines of the BUY task and of the SELL task, in the order in which
    the two tasks complete. *)
Definition joined (w : world) (lb ls : list line) : list line :=
  if sell_first w then ls ++ lb else lb ++ ls.

Section Program.

(** [float(s)] for a string: Python's number parser, [None] when it raises
    [ValueError]. *)
Variable float_of_str : string -> option float.

(** [float(x)] *)
Definition py_float (x : value) : outcome float :=
  match x with
  | VFloat f => Return f
  | VInt z => float_of_int z
  | VBool b => Return (if b then one else zero)
  | VStr s => match float_of_str s with Some f => Return f | None => Raise ValueError end
  | _ => Raise TypeError
  end.

(** [data.get('code') == "000000" or data.get('success') == True] *)
Definition is_success (data : value) : outcome bool :=
  obind (get data "code") (fun code =>
  if eq_str code "000000" then Return true
  else obind (get data "success") (fun success => Return (eq_True success))).

(** [data.get('data') and len(data.get('data', [])) > 0] *)
Definition has_data (data : value) : outcome value :=
  obind (get data "data") (fun d =>
  if truthy d then
    obind (get_default data "data" (VList [])) (fun d' =>
    obind (len d') (fun n => Return (VBool (0 <? n))))
  else Return d).

(** [float(ad['adv']['price'])] *)
Definition price_of (ad : value) : outcome float :=
  obind (subscript ad "adv") (fun adv =>
  obind (subscript adv "price") (fun price => py_float price)).

(** [[float(ad['adv']['price']) for ad in data['data']]] *)
Definition prices_of (data : value) : outcome (list float) :=
  obind (subscript data "data") (fun ads =>
  obind (iter ads) (fun items => omap price_of items)).

(** The statements of the [try] block that follow the request, run by an
    interpreter whose [sum] is compensated or not. *)
Definition average_of (compensated : bool) (data : value) : outcome (option float) :=
  obind (is_success data) (fun success =>
  obind (has_data data) (fun hd =>
  if (success && truthy hd)%bool then
    obind (prices_of data) (fun prices =>
    obind (truediv (py_sum compensated prices) (List.length prices)) (fun avg =>
    Return (Some avg)))
  else Return None)).

Definition fetch_trade_type_average (w : world) (t : trade_type) : M (option float) :=
  try_except
    (data <- lift (fetch_with_timeout w url POST (Some headers) (Some (payload t))
                     default_timeout) ;;
     lift (average_of (compensated_sum w) data))
    (fun error => print (ErrorTasa t error) ;;; ret None).

(** [await asyncio.gather(a, b)]: the lines of the two tasks come in the
    order in which the tasks complete; the exception of the task that raises
    first is raised to the caller at once, before the other task, if it has
    yet to complete, prints anything; the results come in the order of the
    arguments. A fault of the loop is raised after both tasks. *)
Definition gather {A B : Type} (w : world) (a : M A) (b : M B) : M (A * B) :=
  let (la, oa) := a in
  let (lb, ob) := b in
  match loop_fault w with
  | Some e => (joined w la lb, Raise e)
  | None =>
      match oa, ob with
      | Return x, Return y => (joined w la lb, Return (x, y))
      | Raise e, Return _ => (if sell_first w then lb ++ la else la, Raise e)
      | Return _, Raise e => (if sell_first w then lb else la ++ lb, Raise e)
      | Raise ea, Raise eb => if sell_first w then (lb, Raise eb) else (la, Raise ea)
      end
  end.

(** An operand of float arithmetic: [None] is a [TypeError]. *)
Definition operand (o : option float) : M float :=
  match o with
  | Some f => ret f
  | None => raise TypeError
  end.

(** [round(x, 2) if x else None] *)
Definition round_if (x : option float) : M (option float) :=
  if truthy_opt x then (f <- operand x ;; ret (Some (py_round f 2))) else ret None.

Definition get_binance_p2p_rate (w : world) : M (option rate_result) :=
  try_except
    (averages <- gather w (fetch_trade_type_average w BUY)
                          (fetch_trade_type_average w SELL) ;;
     let (buy_avg, sell_avg) := averages : option float * option float in
     if (truthy_opt buy_avg && truthy_opt sell_avg)%bool then
       b <- operand buy_avg ;;
       s <- operand sell_avg ;;
       let market_average := PrimFloat.div (PrimFloat.add b s) 2 in
       let result := {| buy := Some (py_round b 2);
                        sell := Some (py_round s 2);
                        average := Some (py_round market_average 2) |} in
       print (PromedioCompra (buy result)) ;;;
       print (PromedioVenta (sell result)) ;;;
       print (PromedioMercado (average result)) ;;;
       ret (Some result)
     else
       rb <- round_if buy_avg ;;
       rs <- round_if sell_avg ;;
       let result := {| buy := rb; sell := rs; average := None |} in
       (if truthy_opt (buy result) then print (PromedioCompra (buy result)) else ret tt) ;;;
       (if truthy_opt (sell result) then print (PromedioVenta (sell result)) else ret tt) ;;;
       (if (negb (truthy_opt (buy result)) || negb (truthy_opt (sell result)))%bool
        then print SinPromedio else ret tt) ;;;
       ret (Some result))
    (fun error => print (ErrorGeneral error) ;;; ret None).

(** [if result:] in [main]: a dict is true when it is not empty, and the
    dict returned always has its three keys. *)
Definition truthy_result (r : option rate_result) : bool :=
  match r with
  | Some _ => true
  | None => false
  end.

Definition main (w : world) : M unit :=
  print Obteniendo ;;;
  r <- get_binance_p2p_rate w ;;
  if truthy_result r then
    print ResultadoFinal ;;;
    print (Dump r)
  else print NoSePudieron.

End Program.

(** ** Responses and worlds used in the statements *)

(** The quotient [sum(ps) / len(ps)] in binary64 arithmetic, without any
    rounding to decimals. *)
Definition mean (compensated : bool) (ps : list float) : float :=
  PrimFloat.div (py_sum compensated ps) (float_of_len (List.length ps)).

(** What the entry point assembles from the two directional averages. *)
Definition assembled (buy_avg sell_avg : option float) : rate_result :=
  match buy_avg, sell_avg with
  | Some b, Some s =>
      if (truthy_float b && truthy_float s)%bool then
        {| buy := Some (py_round b 2);
           sell := Some (py_round s 2);
           average := Some (py_round (PrimFloat.div (PrimFloat.add b s) 2) 2) |}
      else
        {| buy := if truthy_float b then Some (py_round b 2) else None;
           sell := if truthy_float s then Some (py_round s 2) else None;
           average := None |}
  | _, _ =>
      {| buy := match buy_avg with
                | Some b => if truthy_float b then Some (py_round b 2) else None
                | None => None
                end;
         sell := match sell_avg with
                 | Some s => if truthy_float s then Some (py_round s 2) else None
                 | None => None
                 end;
         average := None |}
  end.

(** What a directional fetch returns when nothing outside [Exception] is
    raised: the average of the response, and nothing on any failure. *)
Definition swallowed (o : outcome (option float)) : option float :=
  match o with
  | Return a => a
  | Raise _ => None
  end.

(** An advertisement with a price, and a response that lists advertisements. *)
Definition ad (price : value) : value :=
  VDict [("adv", VDict [("price", price)])]%string.

Definition response (prices : list value) : value :=
  VDict [("code", VStr "000000"); ("success", VBool true);
         ("data", VList (map ad prices))]%string.

(** A world in which the BUY request and the SELL request are answered as
    given, and any other request fails to connect; the BUY task completes
    first and the interpreter is older than CPython 3.12. *)
Definition world_of (b s : outcome value) (fault : option exn) : world :=
  {| net := fun _ r =>
       match r with
       | Post _ _ (Some body) =>
           if String.eqb body (payload BUY) then b
           else if String.eqb body (payload SELL) then s
           else Raise ClientError
       | _ => Raise ClientError
       end;
     loop_fault := fault;
     sell_first := false;
     compensated_sum := false |}.

(** The same world under CPython 3.12 or later. *)
Definition on_cpython_312 (w : world) : world :=
  {| net := net w;
     loop_fault := loop_fault w;
     sell_first := sell_first w;
     compensated_sum := true |}.

(** The same world with the SELL task completing first. *)
Definition with_sell_first (w : world) : world :=
  {| net := net w;
     loop_fault := loop_fault w;
     sell_first := true;
     compensated_sum := compensated_sum w |}.

Definition prices_str (l : list string) : list value := map VStr l.

(** Scenario A: BUY lists 36.50, 36.60, 36.40 and SELL lists 36.80, 36.90. *)
Definition scenario_A : world :=
  world_of (Return (response (prices_str ["36.50"; "36.60"; "36.40"]%string)))
           (Return (response (prices_str ["36.80"; "36.90"]%string)))
           None.

(** Scenario B: BUY times out and SELL lists 37.00. *)
Definition scenario_B : world :=
  world_of (Raise TimeoutError)
           (Return (response (prices_str ["37.00"]%string)))
           None.

(** Scenario C: both responses have an empty list of advertisements. *)
Definition scenario_C : world :=
  world_of (Return (response [])) (Return (response [])) None.

(** Scenario D: the event loop fails while the two tasks are awaited. *)
Definition scenario_D : world :=
  world_of (Return (response (prices_str ["36.50"]%string)))
           (Return (response (prices_str ["36.80"]%string)))
           (Some RuntimeError).

(** BUY lists a single price of zero, SELL a single price of one. *)
Definition zero_buy : world :=
  world_of (Return (response (prices_str ["0"]%string)))
           (Return (response (prices_str ["1"]%string)))
           None.

(** A response without a code, whose success field is the number one. *)
Definition success_one : value :=
  VDict [("success", VInt 1); ("data", VList [ad (VStr "1")])]%string.

(** The condition of the specification on a response: the code is the string
    000000 or the success field is the boolean true, and the data field is a
    list that is not empty. *)
Definition spec_valid (data : value) : bool :=
  match data with
  | VDict d =>
      ((match lookup "code" d with Some (VStr c) => String.eqb c "000000" | _ => false end
        || match lookup "success" d with Some (VBool true) => true | _ => false end)
       && match lookup "data" d with Some (VList (_ :: _)) => true | _ => false end)%bool
  | _ => false
  end.

(** The condition the code tests on a response that lists [ads]: the
    success field may be anything that compares equal to [True]. *)
Definition accepted (data : value) (ads : list value) : Prop :=
  exists d,
    data = VDict d
    /\ (lookup "code" d = Some (VStr "000000")
        \/ exists v, lookup "success" d = Some v /\ eq_True v = true)
    /\ lookup "data" d = Some (VList ads)
    /\ ads <> [].

(** The test [is_success and has_data] of the directional fetch. *)
Definition validated (data : value) : outcome bool :=
  obind (is_success data) (fun success =>
  obind (has_data data) (fun hd => Return (success && truthy hd)%bool)).

(** Comparison of strings that ignores case, written without [upper]: two
    strings are equal when their case-folded forms are. The table of
    [casefold_char] has the letters A to Z and every other character whose
    case-folded form in Unicode holds one of the letters p, o, s, t: the two
    sharp s (ss), long s (s), t with diaeresis, and the ligatures long s t
    and st (st). *)
Definition casefold_char (c : N) : ustr :=
  (if (65 <=? c) && (c <=? 90) then [c + 32]
   else if (c =? 223) || (c =? 7838) then [115; 115]
   else if c =? 383 then [115]
   else if c =? 7831 then [116; 776]
   else if (c =? 64261) || (c =? 64262) then [115; 116]
   else [c])%N%bool.

Definition casefold (s : ustr) : ustr := flat_map casefold_char s.

Definition equal_ignoring_case (a b : ustr) : bool :=
  ustr_eqb (casefold a) (casefold b).

(** What is left of [t] after the prefix [p], when [t] starts with [p]. *)
Fixpoint strip_prefix (p t : ustr) : option ustr :=
  match p, t with
  | [], _ => Some t
  | x :: p', y :: t' => if N.eqb x y then strip_prefix p' t' else None
  | _ :: _, [] => None
  end.

(** [flat_map f m] is [t], checked character by character of [m]. *)
Fixpoint expands (f : N -> ustr) (m t : ustr) : bool :=
  match m with
  | [] => match t with [] => true | _ => false end
  | c :: m' =>
      match strip_prefix (f c) t with
      | Some rest => expands f m' rest
      | None => false
      end
  end.

(** The lower-case form of an upper-case letter A to Z. *)
Definition lower_letter (c : N) : N :=
  (if (65 <=? c) && (c <=? 90) then c + 32 else c)%N%bool.

(** The ends of POST: what can be left of it after a prefix. *)
Definition post_tails : list ustr :=
  [[80; 79; 83; 84]; [79; 83; 84]; [83; 84]; [84]; []]%N.

(** The method [po]+[long s]+[t], whose upper-case form is POST. *)
Definition long_s_post : ustr := [112; 111; 383; 116]%N.

(** ** Exact values *)

(** The number a float stands for, when it is finite. *)
Definition exact (x : float) : option Q :=
  match Prim2SF x with
  | S754_zero _ => Some 0%Q
  | S754_finite s m e =>
      Some (inject_Z (if s then Z.neg m else Z.pos m) * Qpower 2 e)%Q
  | _ => None
  end.

(** The exact arithmetic mean [(p1 + ... + pN) / N] of finite prices. *)
Definition exact_sum (ps : list float) : option Q :=
  fold_left (fun acc p =>
               match acc, exact p with
               | Some a, Some q => Some (a + q)%Q
               | _, _ => None
               end) ps (Some 0%Q).

Definition exact_mean (ps : list float) : option Q :=
  match exact_sum ps with
  | Some total => Some (total / inject_Z (Z.of_nat (List.length ps)))%Q
  | None => None
  end.

Definition is_exact_mean (a : float) (ps : list float) : bool :=
  match exact a, exact_mean ps with
  | Some x, Some m => Qeq_bool x m
  | _, _ => false
  end.

(** [y] is [x] rounded to two decimals: for a finite [x], of exact value
    [m * 2^e] up to the sign, there is an integer [k] within one half of
    [100 * m * 2^e], and [y] is the float nearest to [k / 100], with the
    sign of [x]; zeros, infinities and NaN are kept. *)
Definition two_decimals (x y : float) : Prop :=
  match Prim2SF x with
  | S754_finite s m e =>
      exists k : Z,
        2 * Z.abs (Z.pos m * 100 * 2 ^ Z.max e 0 - k * 2 ^ Z.max (- e) 0)
        <= 2 ^ Z.max (- e) 0
        /\ y = nearest_float s k 100
  | _ => y = x
  end.

(** The field of a record that belongs to a trade type. *)
Definition field (t : trade_type) (r : rate_result) : option float :=
  match t with
  | BUY => buy r
  | SELL => sell r
  end.

(** The lines that go with a record: the three averages of a full record;
    for a partial one, the averages it has that are not zero, and the note
    that the market average is missing. *)
Definition report (r : rate_result) : list line :=
  match average r with
  | Some _ => [PromedioCompra (buy r); PromedioVenta (sell r); PromedioMercado (average r)]
  | None =>
      (if truthy_opt (buy r) then [PromedioCompra (buy r)] else [])
      ++ (if truthy_opt (sell r) then [PromedioVenta (sell r)] else [])
      ++ [SinPromedio]
  end.

(** The lines a directional fetch can print. *)
Definition is_fetch_line (l : line) : bool :=
  match l with
  | ErrorTasa _ _ => true
  | _ => false
  end.

(** The lines the entry point can print, the ones of its fetches included. *)
Definition is_rate_line (l : line) : bool :=
  match l with
  | Obteniendo | ResultadoFinal | Dump _ | NoSePudieron => false
  | _ => true
  end.

(** A world whose BUY request is cancelled. *)
Definition cancelled_buy : world :=
  world_of (Raise CancelledError)
           (Return (response (prices_str ["36.80"]%string)))
           None.

(** Both requests fail: BUY times out and SELL cannot connect. *)
Definition both_fail : world :=
  world_of (Raise TimeoutError) (Raise ClientError) None.

(** A world whose event loop is cancelled while the tasks are awaited. *)
Definition cancelled_await : world :=
  world_of (Return (response (prices_str ["36.50"]%string)))
           (Return (response (prices_str ["36.80"]%string)))
           (Some CancelledError).

(** Three prices whose mean no float arithmetic gives exactly. *)
Definition tenths : world :=
  world_of (Return (response (prices_str ["0.1"; "0.2"; "0.3"]%string)))
           (Return (response (prices_str ["36.80"; "36.90"]%string)))
           None.

(** A response whose second advertisement has no price. *)
Definition one_bad_ad : value :=
  VDict [("code", VStr "000000");
         ("data", VList [ad (VStr "36.50"); VDict [("adv", VDict [])]])]%string.

(** * Properties *)

Arguments py_round : simpl never.
Arguments payload : simpl never.

(** ** Builtins raise exceptions of class [Exception] only *)

Lemma obind_Return {A B : Type} (o : outcome A) (k : A -> outcome B) (b : B) :
  obind o k = Return b <-> exists a, o = Return a /\ k a = Return b.
Proof.
  destruct o as [a|e]; simpl; split.
  - intros H. exists a. split; [reflexivity | exact H].
  - intros [a' [Ha Hk]]. injection Ha as <-. exact Hk.
  - discriminate.
  - intros [a' [Ha _]]. discriminate.
Qed.

Lemma obind_Raise {A B : Type} (o : outcome A) (k : A -> outcome B) (e : exn) :
  obind o k = Raise e -> o = Raise e \/ exists a, o = Return a /\ k a = Raise e.
Proof.
  destruct o as [a|e']; simpl; intros H.
  - right. exists a. split; [reflexivity | exact H].
  - left. injection H as <-. reflexivity.
Qed.

Lemma omap_Forall2 {A B : Type} (f : A -> outcome B) (l : list A) (l' : list B) :
  omap f l = Return l' <-> Forall2 (fun a b => f a = Return b) l l'.
Proof.
  revert l'. induction l as [|a l IH]; intros l'; simpl.
  - split.
    + intros H. injection H as <-. constructor.
    + intros H. inversion H. reflexivity.
  - split.
    + intros H. apply obind_Return in H. destruct H as [b [Hb H]].
      apply obind_Return in H. destruct H as [bs [Hbs H]].
      injection H as <-. constructor; [exact Hb | apply IH; exact Hbs].
    + intros H. inversion H as [|a' b l1 bs Hb Hbs]; subst.
      rewrite Hb. simpl. apply IH in Hbs. rewrite Hbs. reflexivity.
Qed.

Lemma omap_length {A B : Type} (f : A -> outcome B) (l : list A) (l' : list B) :
  omap f l = Return l' -> List.length l' = List.length l.
Proof.
  intros H. apply omap_Forall2 in H.
  induction H; simpl; [reflexivity | f_equal; assumption].
Qed.

Lemma omap_Raise {A B : Type} (f : A -> outcome B) (P : exn -> Prop) (l : list A) :
  (forall a e, f a = Raise e -> P e) ->
  forall e, omap f l = Raise e -> P e.
Proof.
  intros Hf. induction l as [|a l IH]; simpl; intros e H.
  - discriminate.
  - destruct (f a) as [b|e'] eqn:Ha; simpl in H.
    + destruct (omap f l) as [bs|e'']; simpl in H.
      * discriminate.
      * injection H as <-. apply IH. reflexivity.
    + injection H as <-. apply (Hf a). exact Ha.
Qed.

Lemma get_default_exn (x : value) (key : string) (default : value) (e : exn) :
  get_default x key default = Raise e -> e = AttributeError.
Proof. destruct x; simpl; congruence. Qed.

Lemma subscript_exn (x : value) (key : string) (e : exn) :
  subscript x key = Raise e -> e = KeyError \/ e = TypeError.
Proof.
  destruct x; simpl; try (intros H; right; congruence).
  destruct (lookup key d); intros H; [discriminate | left; congruence].
Qed.

Lemma len_exn (x : value) (e : exn) : len x = Raise e -> e = TypeError.
Proof. destruct x; simpl; congruence. Qed.

Lemma iter_exn (x : value) (e : exn) : iter x = Raise e -> e = TypeError.
Proof. destruct x; simpl; congruence. Qed.

Lemma float_of_int_exn (z : Z) (e : exn) :
  float_of_int z = Raise e -> e = OverflowError.
Proof.
  unfold float_of_int.
  destruct (binary_normalize prec emax z 0 false); congruence.
Qed.

Lemma truediv_exn (x : float) (n : nat) (e : exn) :
  truediv x n = Raise e -> n = O /\ e = ZeroDivisionError.
Proof. destruct n; simpl; intros H; [split; congruence | discriminate]. Qed.

(** ** Rounding to two decimals *)

Lemma round_half_even_near (n d : Z) :
  0 < d -> 2 * Z.abs (n - round_half_even n d * d) <= d.
Proof.
  intros Hd. unfold round_half_even.
  pose proof (Z.div_mod n d ltac:(lia)) as Hn.
  pose proof (Z.mod_pos_bound n d Hd) as Hr.
  set (q := n / d) in *. set (r := n mod d) in *.
  assert (E0 : n - q * d = r) by lia.
  assert (E1 : n - (q + 1) * d = r - d) by (rewrite Z.mul_add_distr_r; lia).
  destruct (2 * r ?= d) eqn:C.
  - apply Z.compare_eq_iff in C.
    destruct (Z.even q); [rewrite E0 | rewrite E1]; lia.
  - change (2 * r < d) in C. rewrite E0. lia.
  - apply Z.compare_gt_iff in C. rewrite E1. lia.
Qed.

Lemma py_round_two_decimals (x : float) : two_decimals x (py_round x 2).
Proof.
  unfold two_decimals, py_round.
  destruct (Prim2SF x) as [s| s | | s m e]; try reflexivity.
  change (10 ^ 2) with 100.
  destruct (0 <=? e) eqn:E.
  - apply Z.leb_le in E.
    exists (Z.pos m * 2 ^ e * 100). split; [|reflexivity].
    rewrite (Z.max_l e 0) by lia. rewrite (Z.max_r (- e) 0) by lia.
    replace (Z.pos m * 100 * 2 ^ e - Z.pos m * 2 ^ e * 100 * 2 ^ 0) with 0
      by (change (2 ^ 0) with 1; ring).
    change (2 ^ 0) with 1. simpl. lia.
  - apply Z.leb_gt in E.
    exists (round_half_even (Z.pos m * 100) (2 ^ (- e))). split; [|reflexivity].
    rewrite (Z.max_r e 0) by lia. rewrite (Z.max_l (- e) 0) by lia.
    change (2 ^ 0) with 1. rewrite Z.mul_1_r.
    apply round_half_even_near. apply Z.pow_pos_nonneg; lia.
Qed.

Section Properties.

Variable float_of_str : string -> option float.


Lemma py_float_exn (x : value) (e : exn) :
  py_float float_of_str x = Raise e -> is_Exception e = true.
Proof.
  destruct x; simpl; intros H; try (injection H as <-; reflexivity); try discriminate.
  - apply float_of_int_exn in H. subst. reflexivity.
  - destruct (float_of_str s); [discriminate | injection H as <-; reflexivity].
Qed.

Lemma price_of_exn (x : value) (e : exn) :
  price_of float_of_str x = Raise e -> is_Exception e = true.
Proof.
  unfold price_of. intros H.
  apply obind_Raise in H. destruct H as [H | [adv [_ H]]].
  - apply subscript_exn in H. destruct H; subst; reflexivity.
  - apply obind_Raise in H. destruct H as [H | [p [_ H]]].
    + apply subscript_exn in H. destruct H; subst; reflexivity.
    + apply py_float_exn in H. exact H.
Qed.

Lemma prices_of_exn (data : value) (e : exn) :
  prices_of float_of_str data = Raise e -> is_Exception e = true.
Proof.
  unfold prices_of. intros H.
  apply obind_Raise in H. destruct H as [H | [ads [_ H]]].
  - apply subscript_exn in H. destruct H; subst; reflexivity.
  - apply obind_Raise in H. destruct H as [H | [items [_ H]]].
    + apply iter_exn in H. subst. reflexivity.
    + apply (omap_Raise (price_of float_of_str)
               (fun e => is_Exception e = true) items price_of_exn e H).
Qed.

Lemma is_success_exn (data : value) (e : exn) :
  is_success data = Raise e -> e = AttributeError.
Proof.
  unfold is_success, get. intros H.
  apply obind_Raise in H. destruct H as [H | [code [_ H]]].
  - apply get_default_exn in H. exact H.
  - destruct (eq_str code "000000"); [discriminate|].
    apply obind_Raise in H. destruct H as [H | [s [_ H]]].
    + apply get_default_exn in H. exact H.
    + discriminate.
Qed.

Lemma has_data_exn (data : value) (e : exn) :
  has_data data = Raise e -> e = AttributeError \/ e = TypeError.
Proof.
  unfold has_data, get. intros H.
  apply obind_Raise in H. destruct H as [H | [d [_ H]]].
  - apply get_default_exn in H. left. exact H.
  - destruct (truthy d); [|discriminate].
    apply obind_Raise in H. destruct H as [H | [d' [_ H]]].
    + apply get_default_exn in H. left. exact H.
    + apply obind_Raise in H. destruct H as [H | [n [_ H]]].
      * apply len_exn in H. right. exact H.
      * discriminate.
Qed.

(** The statements after the request raise nothing outside [Exception]. *)
Lemma average_of_exn (c : bool) (data : value) (e : exn) :
  average_of float_of_str c data = Raise e -> is_Exception e = true.
Proof.
  unfold average_of. intros H.
  apply obind_Raise in H. destruct H as [H | [success [_ H]]].
  - apply is_success_exn in H. subst. reflexivity.
  - apply obind_Raise in H. destruct H as [H | [hd [_ H]]].
    + apply has_data_exn in H. destruct H; subst; reflexivity.
    + destruct (success && truthy hd)%bool; [|discriminate].
      apply obind_Raise in H. destruct H as [H | [prices [_ H]]].
      * apply prices_of_exn in H. exact H.
      * apply obind_Raise in H. destruct H as [H | [avg [_ H]]].
        -- apply truediv_exn in H. destruct H as [_ ->]. reflexivity.
        -- discriminate.
Qed.

(** ** The directional fetch and the entry point, step by step *)

Lemma fetch_request (w : world) (t : trade_type) :
  fetch_with_timeout w url POST (Some headers) (Some (payload t)) default_timeout
  = net w default_timeout (request_of t).
Proof. reflexivity. Qed.

Lemma fetch_unfold (w : world) (t : trade_type) :
  fetch_trade_type_average float_of_str w t =
  match obind (net w default_timeout (request_of t)) (average_of float_of_str (compensated_sum w)) with
  | Return o => ([], Return o)
  | Raise e => if is_Exception e then ([ErrorTasa t e], Return None) else ([], Raise e)
  end.
Proof.
  unfold fetch_trade_type_average. rewrite fetch_request.
  destruct (net w default_timeout (request_of t)) as [data|e]; simpl.
  - destruct (average_of float_of_str (compensated_sum w) data) as [o|e]; simpl.
    + reflexivity.
    + destruct (is_Exception e); reflexivity.
  - destruct (is_Exception e); reflexivity.
Qed.

(** With failures of class [Exception] only, a directional fetch returns. *)
Lemma fetch_returns (w : world) (t : trade_type) :
  (forall e, net w default_timeout (request_of t) = Raise e -> is_Exception e = true) ->
  result (fetch_trade_type_average float_of_str w t)
  = Return (swallowed (obind (net w default_timeout (request_of t))
                             (average_of float_of_str (compensated_sum w)))).
Proof.
  intros Hnet. rewrite fetch_unfold.
  destruct (net w default_timeout (request_of t)) as [data|e]; simpl.
  - destruct (average_of float_of_str (compensated_sum w) data) as [o|e] eqn:Ha; simpl.
    + reflexivity.
    + rewrite (average_of_exn (compensated_sum w) data e Ha). reflexivity.
  - rewrite (Hnet e eq_refl). reflexivity.
Qed.

Lemma rate_of_averages (w : world) (lb ls : list line) (ob os : option float) :
  fetch_trade_type_average float_of_str w BUY = (lb, Return ob) ->
  fetch_trade_type_average float_of_str w SELL = (ls, Return os) ->
  loop_fault w = None ->
  result (get_binance_p2p_rate float_of_str w) = Return (Some (assembled ob os)).
Proof.
  intros Hb Hs Hf. unfold get_binance_p2p_rate, gather.
  rewrite Hb, Hs, Hf.
  destruct ob as [b|], os as [s|]; simpl;
    unfold round_if, truthy_opt; simpl;
    repeat match goal with
           | |- context [truthy_float ?x] => destruct (truthy_float x) eqn:?; simpl
           end;
    reflexivity.
Qed.

Lemma rate_of_fault (w : world) (lb ls : list line) (rb rs : outcome (option float))
    (e : exn) :
  fetch_trade_type_average float_of_str w BUY = (lb, rb) ->
  fetch_trade_type_average float_of_str w SELL = (ls, rs) ->
  loop_fault w = Some e ->
  is_Exception e = true ->
  get_binance_p2p_rate float_of_str w
  = (joined w lb ls ++ [ErrorGeneral e], Return None).
Proof.
  intros Hb Hs Hf He. unfold get_binance_p2p_rate, gather.
  rewrite Hb, Hs, Hf. simpl. rewrite He. reflexivity.
Qed.

Lemma rate_inversion (w : world) (r : rate_result) :
  result (get_binance_p2p_rate float_of_str w) = Return (Some r) ->
  exists ob os,
    result (fetch_trade_type_average float_of_str w BUY) = Return ob
    /\ result (fetch_trade_type_average float_of_str w SELL) = Return os
    /\ loop_fault w = None
    /\ r = assembled ob os.
Proof.
  destruct (fetch_trade_type_average float_of_str w BUY) as [lb rb] eqn:Hb.
  destruct (fetch_trade_type_average float_of_str w SELL) as [ls rs] eqn:Hs.
  destruct (loop_fault w) as [e|] eqn:Hf.
  - unfold get_binance_p2p_rate, gather. rewrite Hb, Hs, Hf. simpl.
    destruct (is_Exception e); simpl; discriminate.
  - destruct rb as [ob|eb], rs as [os|es].
    + rewrite (rate_of_averages w lb ls ob os Hb Hs Hf).
      intros H. injection H as <-. exists ob, os. repeat split; reflexivity.
    + unfold get_binance_p2p_rate, gather. rewrite Hb, Hs, Hf.
      destruct (sell_first w); simpl; destruct (is_Exception es); simpl; discriminate.
    + unfold get_binance_p2p_rate, gather. rewrite Hb, Hs, Hf.
      destruct (sell_first w); simpl; destruct (is_Exception eb); simpl; discriminate.
    + unfold get_binance_p2p_rate, gather. rewrite Hb, Hs, Hf.
      destruct (sell_first w); simpl;
        [destruct (is_Exception es) | destruct (is_Exception eb)]; simpl; discriminate.
Qed.

Lemma assembled_buy (ob os : option float) :
  buy (assembled ob os)
  = match ob with
    | Some b => if truthy_float b then Some (py_round b 2) else None
    | None => None
    end.
Proof.
  destruct ob as [b|], os as [s|]; simpl; try reflexivity.
  destruct (truthy_float b), (truthy_float s); reflexivity.
Qed.

Lemma assembled_sell (ob os : option float) :
  sell (assembled ob os)
  = match os with
    | Some s => if truthy_float s then Some (py_round s 2) else None
    | None => None
    end.
Proof.
  destruct ob as [b|], os as [s|]; simpl; try reflexivity.
  destruct (truthy_float b), (truthy_float s); reflexivity.
Qed.

Lemma assembled_average (ob os : option float) :
  average (assembled ob os)
  = match ob, os with
    | Some b, Some s =>
        if (truthy_float b && truthy_float s)%bool
        then Some (py_round (PrimFloat.div (PrimFloat.add b s) 2) 2) else None
    | _, _ => None
    end.
Proof.
  destruct ob as [b|], os as [s|]; simpl; try reflexivity.
  destruct (truthy_float b), (truthy_float s); reflexivity.
Qed.

Lemma average_of_validated (c : bool) (data : value) :
  average_of float_of_str c data
  = obind (validated data) (fun ok =>
      if ok then
        obind (prices_of float_of_str data) (fun prices =>
        obind (truediv (py_sum c prices) (List.length prices)) (fun avg =>
        Return (Some avg)))
      else Return None).
Proof.
  unfold average_of, validated.
  destruct (is_success data) as [success|e]; simpl; [|reflexivity].
  destruct (has_data data) as [hd|e]; reflexivity.
Qed.

(** A response accepted by the test is a dict whose data is a true value
    that has a length. *)
Lemma validated_true (data : value) :
  validated data = Return true ->
  exists d v,
    data = VDict d
    /\ (lookup "code" d = Some (VStr "000000")
        \/ exists s, lookup "success" d = Some s /\ eq_True s = true)
    /\ lookup "data" d = Some v
    /\ truthy v = true.
Proof.
  unfold validated. intros H.
  apply obind_Return in H. destruct H as [success [Hs H]].
  apply obind_Return in H. destruct H as [hd [Hd H]].
  injection H as H. apply andb_prop in H. destruct H as [-> Hhd].
  destruct data; try discriminate. exists d.
  unfold is_success, get, get_default in Hs. simpl in Hs.
  unfold has_data, get, get_default in Hd. simpl in Hd.
  destruct (lookup "data" d) as [v|] eqn:Hv.
  - exists v. split; [reflexivity|]. split; [|split; [reflexivity|]].
    + destruct (lookup "code" d) as [c|] eqn:Hc.
      * destruct (eq_str c "000000") eqn:Hq.
        -- left. destruct c; try discriminate. simpl in Hq.
           apply String.eqb_eq in Hq. subst. reflexivity.
        -- right. destruct (lookup "success" d) as [s|]; simpl in Hs.
           ++ exists s. split; [reflexivity | congruence].
           ++ discriminate.
      * simpl in Hs. right. destruct (lookup "success" d) as [s|]; simpl in Hs.
        -- exists s. split; [reflexivity | congruence].
        -- discriminate.
    + destruct (truthy v) eqn:Ht; [reflexivity|].
      injection Hd as <-. congruence.
  - simpl in Hd. injection Hd as <-. discriminate.
Qed.

Lemma accepted_validated (data : value) (ads : list value) :
  accepted data ads -> validated data = Return true.
Proof.
  intros [d [-> [Hs [Hd Hne]]]].
  unfold validated, is_success, has_data, get, get_default. simpl.
  rewrite Hd. simpl.
  assert (Hads : exists a l, ads = a :: l).
  { destruct ads as [|a l]; [congruence | exists a, l; reflexivity]. }
  destruct Hads as [a [l ->]]. simpl.
  destruct Hs as [Hc | [v [Hv Ht]]].
  - rewrite Hc. simpl. reflexivity.
  - destruct (lookup "code" d) as [c|]; simpl.
    + destruct (eq_str c "000000"); simpl.
      * reflexivity.
      * rewrite Hv. simpl. rewrite Ht. reflexivity.
    + rewrite Hv. simpl. rewrite Ht. reflexivity.
Qed.

(** Prices come out of a list only: the characters of a string and the keys
    of a dict are strings, which have no field. *)
Lemma prices_of_Return (d : list (string * value)) (v : value) (ps : list float) :
  lookup "data" d = Some v ->
  truthy v = true ->
  prices_of float_of_str (VDict d) = Return ps ->
  exists ads, v = VList ads /\ ads <> []
              /\ Forall2 (fun ad p => price_of float_of_str ad = Return p) ads ps.
Proof.
  intros Hv Ht H. unfold prices_of, subscript in H. rewrite Hv in H. simpl in H.
  destruct v; simpl in H; try discriminate.
  - destruct s as [|c s]; [discriminate|]. simpl in H. discriminate.
  - exists l. split; [reflexivity|]. split.
    + destruct l; [discriminate | congruence].
    + apply omap_Forall2. exact H.
  - destruct d0 as [|kv d0]; [discriminate|]. simpl in H. discriminate.
Qed.

Lemma average_of_Some (c : bool) (data : value) (a : float) :
  average_of float_of_str c data = Return (Some a) <->
  exists ads ps,
    accepted data ads
    /\ Forall2 (fun ad p => price_of float_of_str ad = Return p) ads ps
    /\ a = mean c ps.
Proof.
  rewrite average_of_validated. split.
  - intros H. apply obind_Return in H. destruct H as [ok [Hok H]].
    destruct ok; [|discriminate].
    apply obind_Return in H. destruct H as [ps [Hps H]].
    apply obind_Return in H. destruct H as [avg [Havg H]].
    injection H as <-.
    apply validated_true in Hok. destruct Hok as [d [v [-> [Hs [Hv Ht]]]]].
    destruct (prices_of_Return d v ps Hv Ht Hps) as [ads [-> [Hne Hall]]].
    exists ads, ps. split; [|split].
    + exists d. repeat split; assumption.
    + exact Hall.
    + unfold truediv in Havg. unfold mean.
      destruct (List.length ps); [discriminate | congruence].
  - intros [ads [ps [Hacc [Hall ->]]]].
    rewrite (accepted_validated data ads Hacc). simpl.
    destruct Hacc as [d [-> [_ [Hd Hne]]]].
    unfold prices_of, subscript. rewrite Hd. simpl.
    apply omap_Forall2 in Hall. rewrite Hall. simpl.
    apply omap_length in Hall. unfold truediv, mean.
    destruct ps as [|p ps].
    + destruct ads; [congruence | discriminate].
    + reflexivity.
Qed.

(** ** The claims *)

(** C1. In the record the entry point returns, the market average is present
    if and only if the buy average and the sell average are both present. *)
Theorem market_average_iff_both (w : world) (r : rate_result) :
  result (get_binance_p2p_rate float_of_str w) = Return (Some r) ->
  (average r <> None <-> buy r <> None /\ sell r <> None).
Proof.
  intros H. apply rate_inversion in H.
  destruct H as [ob [os [_ [_ [_ ->]]]]].
  rewrite assembled_buy, assembled_sell, assembled_average.
  destruct ob as [b|], os as [s|];
    try destruct (truthy_float b); try destruct (truthy_float s); simpl;
    split; try (intros [? ?]); try intros ?; try split; congruence.
Qed.

(** C2, as amended. When the response of a directional fetch passes the
    test and lists advertisements with prices [p1 .. pN], [N >= 1], the
    fetch returns the binary64 quotient of the interpreter's sum of the
    prices (the additions from left to right, with the correction of their
    rounding errors from CPython 3.12 on) by [N]: it is not rounded to
    decimals, and it is the exact mean only up to the roundings of these
    operations. The rounding to two decimals is applied later, by the entry
    point: an average that is not zero is stored in the record rounded to
    two decimals. *)
Theorem directional_average_is_float_quotient (w : world) (t : trade_type)
    (data : value) (ads : list value) (ps : list float) :
  net w default_timeout (request_of t) = Return data ->
  accepted data ads ->
  Forall2 (fun ad p => price_of float_of_str ad = Return p) ads ps ->
  let total := if compensated_sum w then py_sum_compensated ps
               else fold_left PrimFloat.add ps zero in
  let a := PrimFloat.div total
             (PrimFloat.of_uint63 (Uint63.of_Z (Z.of_nat (List.length ps)))) in
  result (fetch_trade_type_average float_of_str w t) = Return (Some a)
  /\ forall r,
       result (get_binance_p2p_rate float_of_str w) = Return (Some r) ->
       field t r = (if PrimFloat.eqb a zero then None else Some (py_round a 2))
       /\ two_decimals a (py_round a 2).
Proof.
  intros Hnet Hacc Hall total a.
  assert (Hfetch : result (fetch_trade_type_average float_of_str w t)
                   = Return (Some a)).
  { rewrite fetch_unfold, Hnet. simpl.
    assert (Ha : average_of float_of_str (compensated_sum w) data
                 = Return (Some (mean (compensated_sum w) ps))).
    { apply average_of_Some. exists ads, ps. repeat split; assumption. }
    rewrite Ha. reflexivity. }
  split; [exact Hfetch|].
  intros r Hr. split; [|apply py_round_two_decimals].
  apply rate_inversion in Hr.
  destruct Hr as [ob [os [Hb [Hs [_ ->]]]]].
  destruct t; simpl.
  - rewrite Hfetch in Hb. injection Hb as <-. rewrite assembled_buy.
    unfold truthy_float. destruct (PrimFloat.eqb a zero); reflexivity.
  - rewrite Hfetch in Hs. injection Hs as <-. rewrite assembled_sell.
    unfold truthy_float. destruct (PrimFloat.eqb a zero); reflexivity.
Qed.


(** C5, as amended. A directional fetch returns the mean of the prices
    exactly when the response is a dict whose code is the string 000000 or
    whose success field compares equal to [True] (the boolean, or a number
    equal to one), whose data is a list that is not empty, and every entry
    of the list has a price that [float] converts. When the response is not
    such a dict, the fetch returns nothing. *)
Theorem average_present_exactly_when (w : world) (t : trade_type) (data : value) :
  net w default_timeout (request_of t) = Return data ->
  (forall a,
     result (fetch_trade_type_average float_of_str w t) = Return (Some a)
     <-> exists ads ps,
           accepted data ads
           /\ Forall2 (fun ad p => price_of float_of_str ad = Return p) ads ps
           /\ a = mean (compensated_sum w) ps)
  /\ ((forall ads, ~ accepted data ads) ->
      result (fetch_trade_type_average float_of_str w t) = Return None).
Proof.
  intros Hnet.
  assert (Hres : result (fetch_trade_type_average float_of_str w t)
                 = Return (swallowed (average_of float_of_str (compensated_sum w) data))).
  { rewrite fetch_returns; rewrite Hnet; [reflexivity | discriminate]. }
  rewrite Hres.
  assert (Hiff : forall a, Return (swallowed (average_of float_of_str (compensated_sum w) data))
                           = Return (Some a)
                           <-> average_of float_of_str (compensated_sum w) data = Return (Some a)).
  { intros a. destruct (average_of float_of_str (compensated_sum w) data) as [o|e]; simpl; split;
      intros H; congruence. }
  split.
  - intros a. rewrite Hiff. apply average_of_Some.
  - intros Hno. clear Hiff Hres.
    destruct (average_of float_of_str (compensated_sum w) data) as [[a|]|e] eqn:Ha; try reflexivity.
    exfalso. apply average_of_Some in Ha. destruct Ha as [ads [ps [Hacc _]]].
    exact (Hno ads Hacc).
Qed.

(** C6. When both responses fail the test (both list no advertisement, for
    example), the entry point returns a record whose three fields are
    absent, and not the absent result. *)
Theorem both_invalid_all_absent (w : world) (db ds : value) :
  loop_fault w = None ->
  net w default_timeout (request_of BUY) = Return db ->
  net w default_timeout (request_of SELL) = Return ds ->
  validated db = Return false ->
  validated ds = Return false ->
  result (get_binance_p2p_rate float_of_str w)
  = Return (Some {| buy := None; sell := None; average := None |}).
Proof.
  intros Hf Hb Hs Vb Vs.
  assert (HB : fetch_trade_type_average float_of_str w BUY = ([], Return None)).
  { rewrite fetch_unfold, Hb. simpl. rewrite average_of_validated, Vb. reflexivity. }
  assert (HS : fetch_trade_type_average float_of_str w SELL = ([], Return None)).
  { rewrite fetch_unfold, Hs. simpl. rewrite average_of_validated, Vs. reflexivity. }
  rewrite (rate_of_averages w [] [] None None HB HS Hf). reflexivity.
Qed.

(** C7, as amended. When an exception of class [Exception] is raised in
    the entry point itself, outside the two directional fetches, the entry
    point prints the general error and returns the absent result, which is
    no record. An exception outside that class (a cancellation, an
    interruption from the keyboard) is not caught: the entry point raises
    it. *)
Theorem orchestration_fault_outcome (w : world) (e : exn) :
  loop_fault w = Some e ->
  (is_Exception e = true ->
   result (get_binance_p2p_rate float_of_str w) = Return None
   /\ In (ErrorGeneral e) (printed (get_binance_p2p_rate float_of_str w))
   /\ forall r : rate_result,
        result (get_binance_p2p_rate float_of_str w) <> Return (Some r))
  /\ (is_Exception e = false ->
      result (get_binance_p2p_rate float_of_str w) = Raise e).
Proof.
  intros Hf.
  destruct (fetch_trade_type_average float_of_str w BUY) as [lb rb] eqn:Hb.
  destruct (fetch_trade_type_average float_of_str w SELL) as [ls rs] eqn:Hs.
  split; intros He.
  - rewrite (rate_of_fault w lb ls rb rs e Hb Hs Hf He). simpl.
    split; [reflexivity|]. split.
    + apply in_or_app. right. left. reflexivity.
    + intros r. discriminate.
  - unfold get_binance_p2p_rate, gather. rewrite Hb, Hs, Hf. simpl.
    rewrite He. reflexivity.
Qed.

(** C8. When a directional fetch returns an average equal to 0.0, the entry
    point treats the direction as absent: its field of the record is absent,
    and so is the market average. *)
Theorem zero_average_is_absent (w : world) (r : rate_result) (f : float) :
  result (get_binance_p2p_rate float_of_str w) = Return (Some r) ->
  PrimFloat.eqb f zero = true ->
  (result (fetch_trade_type_average float_of_str w BUY) = Return (Some f) ->
   buy r = None /\ average r = None)
  /\ (result (fetch_trade_type_average float_of_str w SELL) = Return (Some f) ->
      sell r = None /\ average r = None).
Proof.
  intros Hr Hz. apply rate_inversion in Hr.
  destruct Hr as [ob [os [Hb [Hs [_ ->]]]]].
  assert (Ht : truthy_float f = false).
  { unfold truthy_float. rewrite Hz. reflexivity. }
  split; intros H.
  - rewrite H in Hb. injection Hb as <-.
    rewrite assembled_buy, assembled_average, Ht. simpl.
    split; [reflexivity | destruct os; reflexivity].
  - rewrite H in Hs. injection Hs as <-.
    rewrite assembled_sell, assembled_average, Ht.
    split; [reflexivity | destruct ob as [b|]; [rewrite andb_false_r|]; reflexivity].
Qed.

End Properties.

(** ** The method of a request *)

Lemma ustr_eqb_app (p x t : ustr) :
  ustr_eqb (p ++ x) t
  = match strip_prefix p t with
    | Some rest => ustr_eqb x rest
    | None => false
    end.
Proof.
  revert t. induction p as [|y p IH]; intros t; simpl.
  - reflexivity.
  - destruct t as [|z t]; [reflexivity|].
    destruct (N.eqb y z); [apply IH | reflexivity].
Qed.

Lemma expands_flat_map (f : N -> ustr) (m t : ustr) :
  expands f m t = ustr_eqb (flat_map f m) t.
Proof.
  revert t. induction m as [|c m IH]; intros t; simpl.
  - destruct t; reflexivity.
  - rewrite ustr_eqb_app.
    destruct (strip_prefix (f c) t) as [rest|]; [apply IH | reflexivity].
Qed.

Ltac decide_tests :=
  repeat match goal with
         | |- context [N.leb ?a ?b] => destruct (N.leb_spec a b)
         | |- context [N.eqb ?a ?b] => destruct (N.eqb_spec a b)
         end;
  simpl; try reflexivity; try lia.

Lemma upper_char_small (c : N) :
  (97 <= c <= 122)%N -> upper_char c = [(c - 32)%N].
Proof. intros H. unfold upper_char. decide_tests. Qed.

Lemma upper_char_plain (c : N) :
  ~ (97 <= c <= 122)%N ->
  c <> 223%N -> c <> 383%N -> c <> 7831%N -> c <> 64261%N -> c <> 64262%N ->
  upper_char c = [c].
Proof. intros H H1 H2 H3 H4 H5. unfold upper_char. decide_tests. Qed.

Lemma casefold_char_capital (c : N) :
  (65 <= c <= 90)%N -> casefold_char c = [(c + 32)%N].
Proof. intros H. unfold casefold_char. decide_tests. Qed.

Lemma casefold_char_plain (c : N) :
  ~ (65 <= c <= 90)%N ->
  c <> 223%N -> c <> 7838%N -> c <> 383%N -> c <> 7831%N ->
  c <> 64261%N -> c <> 64262%N ->
  casefold_char c = [c].
Proof. intros H H1 H2 H3 H4 H5 H6. unfold casefold_char. decide_tests. Qed.

(** Every character is one of the letters of POST in either case, one of
    the six characters of the tables, another small letter, another capital
    letter, or another character. *)
Lemma char_classes (c : N) :
  (In c [80; 112; 79; 111; 83; 115; 84; 116; 223; 383; 7831; 7838; 64261; 64262]
   \/ ((97 <= c <= 122) /\ c <> 112 /\ c <> 111 /\ c <> 115 /\ c <> 116)
   \/ ((65 <= c <= 90) /\ c <> 80 /\ c <> 79 /\ c <> 83 /\ c <> 84)
   \/ (~ (97 <= c <= 122) /\ ~ (65 <= c <= 90)
       /\ c <> 223 /\ c <> 383 /\ c <> 7831 /\ c <> 7838
       /\ c <> 64261 /\ c <> 64262))%N.
Proof. simpl. lia. Qed.

Lemma char_step (c : N) (t : ustr) :
  In t post_tails ->
  match strip_prefix (upper_char c) t with
  | Some rest =>
      In rest post_tails
      /\ strip_prefix (casefold_char c) (map lower_letter t)
         = Some (map lower_letter rest)
  | None => strip_prefix (casefold_char c) (map lower_letter t) = None
  end.
Proof.
  intros Ht.
  destruct (char_classes c) as [Hc | [Hc | [Hc | Hc]]].
  - simpl in Hc.
    repeat (destruct Hc as [<- | Hc];
            [simpl in Ht;
             repeat (destruct Ht as [<- | Ht];
                     [vm_compute;
                      first [reflexivity | split; [auto 10 | reflexivity]] |]);
             contradiction |]).
    contradiction.
  - destruct Hc as [Hr [H1 [H2 [H3 H4]]]].
    rewrite (upper_char_small c Hr).
    rewrite (casefold_char_plain c) by lia.
    simpl in Ht.
    repeat (destruct Ht as [<- | Ht];
            [simpl; unfold lower_letter; simpl; decide_tests |]).
    contradiction.
  - destruct Hc as [Hr [H1 [H2 [H3 H4]]]].
    rewrite (upper_char_plain c) by lia.
    rewrite (casefold_char_capital c Hr).
    simpl in Ht.
    repeat (destruct Ht as [<- | Ht];
            [simpl; unfold lower_letter; simpl; decide_tests |]).
    contradiction.
  - destruct Hc as [Hl [Hu [H1 [H2 [H3 [H4 [H5 H6]]]]]]].
    rewrite (upper_char_plain c) by lia.
    rewrite (casefold_char_plain c) by lia.
    simpl in Ht.
    repeat (destruct Ht as [<- | Ht];
            [simpl; unfold lower_letter; simpl; decide_tests |]).
    contradiction.
Qed.

Lemma expands_ignoring_case (m t : ustr) :
  In t post_tails ->
  expands upper_char m t = expands casefold_char m (map lower_letter t).
Proof.
  revert t. induction m as [|c m IH]; intros t Ht; simpl.
  - destruct t; reflexivity.
  - pose proof (char_step c t Ht) as Hc.
    destruct (strip_prefix (upper_char c) t) as [rest|].
    + destruct Hc as [Hrest ->]. apply IH. exact Hrest.
    + rewrite Hc. reflexivity.
Qed.

(** The test of the code, [method.upper() == 'POST'], is the comparison of
    the method with POST that ignores case. *)
Lemma upper_is_post (m : ustr) :
  ustr_eqb (upper m) POST = equal_ignoring_case m POST.
Proof.
  unfold equal_ignoring_case, upper, casefold.
  rewrite <- !expands_flat_map.
  apply (expands_ignoring_case m POST). left. reflexivity.
Qed.

(** C10. A method that differs from POST, the case of letters ignored, makes
    the helper send a GET request without the body (for GET and for any
    other method); a method equal to POST, the case ignored, and no other,
    makes it send the body by POST. The comparison is the one the code
    makes through the upper-case form of the method. *)
Theorem only_post_sends_the_body (w : world) (url : string) (method : ustr)
    (headers : option (list (string * string))) (data : option string)
    (timeout : Z) :
  ustr_eqb (upper method) POST = equal_ignoring_case method POST
  /\ fetch_with_timeout w url method headers data timeout
     = if equal_ignoring_case method POST
       then net w timeout (Post url headers data)
       else net w timeout (Get url headers).
Proof.
  pose proof (upper_is_post method) as H.
  split; [exact H|].
  unfold fetch_with_timeout. rewrite H. reflexivity.
Qed.

(** With a long s for its third letter the method is POST, the case ignored,
    and the body is sent. *)
Lemma long_s_method_posts (w : world) (data : option string) :
  equal_ignoring_case long_s_post POST = true
  /\ fetch_with_timeout w url long_s_post None data default_timeout
     = net w default_timeout (Post url None data).
Proof. split; reflexivity. Qed.

(** ** Scenarios *)

Set Warnings "-inexact-float".

(** C3, at a price of zero. BUY lists the price 0 and SELL the price 1: both
    directional averages are present, 0.0 and 1.0, and the record has
    neither the buy average nor the market average. *)
Theorem zero_average_dropped :
  result (fetch_trade_type_average decimal_float_of_str zero_buy BUY)
  = Return (Some 0%float)
  /\ result (fetch_trade_type_average decimal_float_of_str zero_buy SELL)
     = Return (Some 1%float)
  /\ result (get_binance_p2p_rate decimal_float_of_str zero_buy)
     = Return (Some {| buy := None; sell := Some 1%float; average := None |}).
Proof. repeat split; vm_compute; reflexivity. Qed.

(** C5, as stated, fails: a response without a code whose success field is
    the number one does not meet the condition of the specification, and
    the fetch returns an average for it. *)
Lemma number_one_counts_as_success :
  spec_valid success_one = false
  /\ result (fetch_trade_type_average decimal_float_of_str
               (world_of (Return success_one) (Return success_one) None) BUY)
     = Return (Some 1%float).
Proof. split; vm_compute; reflexivity. Qed.

(** On the prices of scenario A the corrected sum of CPython 3.12 is the
    plain sum from left to right, and the whole run is the same under
    either interpreter. *)
Lemma scenario_A_sums_agree :
  py_sum true [36.5; 36.6; 36.4]%float = py_sum false [36.5; 36.6; 36.4]%float
  /\ py_sum true [36.8; 36.9]%float = py_sum false [36.8; 36.9]%float
  /\ get_binance_p2p_rate decimal_float_of_str (on_cpython_312 scenario_A)
     = get_binance_p2p_rate decimal_float_of_str scenario_A.
Proof. repeat split; vm_compute; reflexivity. Qed.

(** The two sums differ on the ten prices 36.81 to 36.90: their quotient by
    ten rounds to 36.85 for the plain sum and to 36.86 for the corrected
    one. *)
Lemma sums_differ_on_ten_prices :
  py_round (mean false [36.81; 36.82; 36.83; 36.84; 36.85;
                        36.86; 36.87; 36.88; 36.89; 36.9]%float) 2 = 36.85%float
  /\ py_round (mean true [36.81; 36.82; 36.83; 36.84; 36.85;
                          36.86; 36.87; 36.88; 36.89; 36.9]%float) 2 = 36.86%float.
Proof. split; vm_compute; reflexivity. Qed.

(** C2, as stated, fails: for the prices 0.1, 0.2 and 0.3 the fetch returns
    0.20000000000000004 with the plain sum and 0.19999999999999998 with the
    corrected one; neither is the exact arithmetic mean of the three prices,
    nor the float nearest to 0.2. *)
Lemma average_is_not_the_exact_mean :
  result (fetch_trade_type_average decimal_float_of_str tenths BUY)
  = Return (Some 0.20000000000000004%float)
  /\ is_exact_mean 0.20000000000000004%float [0.1; 0.2; 0.3]%float = false
  /\ PrimFloat.eqb 0.20000000000000004%float 0.2%float = false
  /\ result (fetch_trade_type_average decimal_float_of_str
               (on_cpython_312 tenths) BUY)
     = Return (Some 0.19999999999999998%float)
  /\ is_exact_mean 0.19999999999999998%float [0.1; 0.2; 0.3]%float = false
  /\ PrimFloat.eqb 0.19999999999999998%float 0.2%float = false.
Proof. repeat split; vm_compute; reflexivity. Qed.

(** A mean that floats hold exactly is recognised as such. *)
Lemma exact_mean_of_halves :
  is_exact_mean 1.5%float [1; 2]%float = true
  /\ is_exact_mean 36.5%float [36.25; 36.75]%float = true.
Proof. split; vm_compute; reflexivity. Qed.

(** C7, as stated, fails: when the event loop is cancelled while the two
    tasks are awaited, the exception escapes the entry point, which returns
    nothing at all. *)
Lemma cancelled_await_raises :
  loop_fault cancelled_await = Some CancelledError
  /\ result (get_binance_p2p_rate decimal_float_of_str cancelled_await)
     = Raise CancelledError
  /\ result (get_binance_p2p_rate decimal_float_of_str cancelled_await)
     <> Return None.
Proof. repeat split; try (vm_compute; reflexivity). vm_compute. discriminate. Qed.

(** C9, as stated, fails: the market average of scenario A is not 36.68. *)
Lemma scenario_A_is_not_36_68 :
  result (get_binance_p2p_rate decimal_float_of_str scenario_A)
  <> Return (Some {| buy := Some 36.5%float;
                     sell := Some 36.85%float;
                     average := Some 36.68%float |}).
Proof.
  intros H.
  apply (f_equal (fun o =>
           match o with
           | Return (Some r) =>
               match average r with
               | Some a => PrimFloat.eqb a 36.68%float
               | None => false
               end
           | _ => false
           end)) in H.
  vm_compute in H. discriminate.
Qed.

(** C9, as amended. In scenario A the directional averages are 36.5 and
    36.849999999999994; the record holds the buy average 36.5, the sell
    average 36.85 and the market average 36.67, the sum of the two
    directional averages halved being just below 36.675. *)
Theorem scenario_A_rates :
  result (fetch_trade_type_average decimal_float_of_str scenario_A BUY)
  = Return (Some 36.5%float)
  /\ result (fetch_trade_type_average decimal_float_of_str scenario_A SELL)
     = Return (Some 36.849999999999994%float)
  /\ result (get_binance_p2p_rate decimal_float_of_str scenario_A)
     = Return (Some {| buy := Some 36.5%float;
                       sell := Some 36.85%float;
                       average := Some 36.67%float |}).
Proof. repeat split; vm_compute; reflexivity. Qed.

(** ** The general statements at the scenarios *)

Lemma market_average_iff_both_witness :
  result (get_binance_p2p_rate decimal_float_of_str scenario_B)
  = Return (Some {| buy := None; sell := Some 37%float; average := None |})
  /\ (average {| buy := None; sell := Some 37%float; average := None |} <> None
      <-> buy {| buy := None; sell := Some 37%float; average := None |} <> None
          /\ sell {| buy := None; sell := Some 37%float; average := None |} <> None).
Proof.
  split.
  - vm_compute. reflexivity.
  - apply (market_average_iff_both decimal_float_of_str scenario_B).
    vm_compute. reflexivity.
Defined.

Lemma directional_average_is_float_quotient_witness :
  net scenario_A default_timeout (request_of SELL)
  = Return (response (prices_str ["36.80"; "36.90"]%string))
  /\ result (fetch_trade_type_average decimal_float_of_str scenario_A SELL)
     = Return (Some 36.849999999999994%float)
  /\ forall r,
       result (get_binance_p2p_rate decimal_float_of_str scenario_A) = Return (Some r) ->
       field SELL r = Some 36.85%float
       /\ two_decimals 36.849999999999994%float 36.85%float.
Proof.
  split.
  - vm_compute. reflexivity.
  - assert (Hacc : accepted (response (prices_str ["36.80"; "36.90"]%string))
                     (map ad (prices_str ["36.80"; "36.90"]%string))).
    { eexists. split; [reflexivity|]. split; [left; reflexivity|].
      split; [reflexivity | discriminate]. }
    assert (Hall : Forall2
                     (fun ad p => price_of decimal_float_of_str ad = Return p)
                     (map ad (prices_str ["36.80"; "36.90"]%string))
                     [36.8; 36.9]%float).
    { repeat constructor; vm_compute; reflexivity. }
    destruct (directional_average_is_float_quotient decimal_float_of_str
                scenario_A SELL
                (response (prices_str ["36.80"; "36.90"]%string))
                (map ad (prices_str ["36.80"; "36.90"]%string))
                [36.8; 36.9]%float eq_refl Hacc Hall) as [Hfetch Hfield].
    split.
    + rewrite Hfetch. vm_compute. reflexivity.
    + intros r Hr. destruct (Hfield r Hr) as [F D]. split.
      * rewrite F. vm_compute. reflexivity.
      * replace 36.849999999999994%float
          with (PrimFloat.div
                  (if compensated_sum scenario_A
                   then py_sum_compensated [36.8; 36.9]%float
                   else fold_left PrimFloat.add [36.8; 36.9]%float zero)
                  (PrimFloat.of_uint63
                     (Uint63.of_Z (Z.of_nat (List.length [36.8; 36.9]%float)))))
          by (vm_compute; reflexivity).
        replace 36.85%float
          with (py_round
                  (PrimFloat.div
                     (if compensated_sum scenario_A
                      then py_sum_compensated [36.8; 36.9]%float
                      else fold_left PrimFloat.add [36.8; 36.9]%float zero)
                     (PrimFloat.of_uint63
                        (Uint63.of_Z (Z.of_nat (List.length [36.8; 36.9]%float)))))
                  2)
          by (vm_compute; reflexivity).
        exact D.
Defined.


Lemma average_present_exactly_when_witness :
  net (world_of (Return success_one) (Return (response [])) None)
      default_timeout (request_of BUY) = Return success_one
  /\ (forall a,
        result (fetch_trade_type_average decimal_float_of_str
                  (world_of (Return success_one) (Return (response [])) None) BUY)
        = Return (Some a)
        <-> exists ads ps,
              accepted success_one ads
              /\ Forall2 (fun ad p => price_of decimal_float_of_str ad = Return p) ads ps
              /\ a = mean false ps)
  /\ ((forall ads, ~ accepted success_one ads) ->
      result (fetch_trade_type_average decimal_float_of_str
                (world_of (Return success_one) (Return (response [])) None) BUY)
      = Return None).
Proof.
  split.
  - vm_compute. reflexivity.
  - apply (average_present_exactly_when decimal_float_of_str
             (world_of (Return success_one) (Return (response [])) None)
             BUY success_one).
    vm_compute. reflexivity.
Defined.

Lemma both_invalid_all_absent_witness :
  loop_fault scenario_C = None
  /\ validated (response []) = Return false
  /\ result (get_binance_p2p_rate decimal_float_of_str scenario_C)
     = Return (Some {| buy := None; sell := None; average := None |}).
Proof.
  split; [reflexivity|]. split; [vm_compute; reflexivity|].
  apply (both_invalid_all_absent decimal_float_of_str scenario_C
           (response []) (response [])).
  - reflexivity.
  - vm_compute. reflexivity.
  - vm_compute. reflexivity.
  - vm_compute. reflexivity.
  - vm_compute. reflexivity.
Defined.

Lemma orchestration_fault_outcome_witness :
  loop_fault scenario_D = Some RuntimeError
  /\ (is_Exception RuntimeError = true ->
      result (get_binance_p2p_rate decimal_float_of_str scenario_D) = Return None
      /\ In (ErrorGeneral RuntimeError)
            (printed (get_binance_p2p_rate decimal_float_of_str scenario_D))
      /\ forall r : rate_result,
           result (get_binance_p2p_rate decimal_float_of_str scenario_D)
           <> Return (Some r))
  /\ loop_fault cancelled_await = Some CancelledError
  /\ (is_Exception CancelledError = false ->
      result (get_binance_p2p_rate decimal_float_of_str cancelled_await)
      = Raise CancelledError).
Proof.
  split; [reflexivity|]. split.
  - apply (orchestration_fault_outcome decimal_float_of_str scenario_D RuntimeError).
    reflexivity.
  - split; [reflexivity|].
    apply (orchestration_fault_outcome decimal_float_of_str cancelled_await
             CancelledError).
    reflexivity.
Defined.

Lemma zero_average_is_absent_witness :
  result (get_binance_p2p_rate decimal_float_of_str zero_buy)
  = Return (Some {| buy := None; sell := Some 1%float; average := None |})
  /\ PrimFloat.eqb 0%float zero = true
  /\ result (fetch_trade_type_average decimal_float_of_str zero_buy BUY)
     = Return (Some 0%float)
  /\ buy {| buy := None; sell := Some 1%float; average := None |} = None
  /\ average {| buy := None; sell := Some 1%float; average := None |} = None.
Proof.
  split; [vm_compute; reflexivity|]. split; [vm_compute; reflexivity|].
  split; [vm_compute; reflexivity|].
  apply (zero_average_is_absent decimal_float_of_str zero_buy
           {| buy := None; sell := Some 1%float; average := None |} 0%float).
  - vm_compute. reflexivity.
  - vm_compute. reflexivity.
  - vm_compute. reflexivity.
Defined.

(** * Further properties of the program *)

Section Behaviour.

Variable float_of_str : string -> option float.

Lemma fetch_prints_errors_only (w : world) (t : trade_type) :
  forallb is_fetch_line (printed (fetch_trade_type_average float_of_str w t)) = true.
Proof.
  rewrite fetch_unfold.
  destruct (obind (net w default_timeout (request_of t)) (average_of float_of_str (compensated_sum w)))
    as [o|e]; [reflexivity|].
  destruct (is_Exception e); reflexivity.
Qed.

Lemma fetch_Some_silent (w : world) (t : trade_type) (a : float) :
  result (fetch_trade_type_average float_of_str w t) = Return (Some a) ->
  fetch_trade_type_average float_of_str w t = ([], Return (Some a)).
Proof.
  rewrite fetch_unfold.
  destruct (obind (net w default_timeout (request_of t)) (average_of float_of_str (compensated_sum w)))
    as [o|e]; simpl.
  - intros H. injection H as ->. reflexivity.
  - destruct (is_Exception e); simpl; discriminate.
Qed.

Lemma In_joined (w : world) (lb ls : list line) (x : line) :
  In x (joined w lb ls) <-> In x lb \/ In x ls.
Proof.
  unfold joined. destruct (sell_first w); rewrite in_app_iff; tauto.
Qed.

Lemma joined_nil (w : world) : joined w [] [] = [].
Proof. unfold joined. destruct (sell_first w); reflexivity. Qed.

Lemma forallb_joined (f : line -> bool) (w : world) (lb ls : list line) :
  forallb f (joined w lb ls) = (forallb f lb && forallb f ls)%bool.
Proof.
  unfold joined. destruct (sell_first w); rewrite forallb_app;
    [apply andb_comm | reflexivity].
Qed.

Lemma Permutation_joined (w w' : world) (lb ls : list line) :
  Permutation (joined w lb ls) (joined w' lb ls).
Proof.
  unfold joined. destruct (sell_first w), (sell_first w');
    try apply Permutation_refl; apply Permutation_app_comm.
Qed.

Lemma rate_of_averages_full (w : world) (lb ls : list line) (ob os : option float) :
  fetch_trade_type_average float_of_str w BUY = (lb, Return ob) ->
  fetch_trade_type_average float_of_str w SELL = (ls, Return os) ->
  loop_fault w = None ->
  get_binance_p2p_rate float_of_str w
  = (joined w lb ls ++ report (assembled ob os), Return (Some (assembled ob os))).
Proof.
  intros Hb Hs Hf. unfold get_binance_p2p_rate, gather.
  rewrite Hb, Hs, Hf.
  destruct ob as [b|], os as [s|]; simpl;
    unfold round_if, truthy_opt, report; simpl;
    repeat match goal with
           | |- context [truthy_float ?x] => destruct (truthy_float x) eqn:?; simpl
           end;
    rewrite <- ?app_assoc; reflexivity.
Qed.

Lemma rate_inversion_full (w : world) (r : rate_result) :
  result (get_binance_p2p_rate float_of_str w) = Return (Some r) ->
  exists lb ls ob os,
    fetch_trade_type_average float_of_str w BUY = (lb, Return ob)
    /\ fetch_trade_type_average float_of_str w SELL = (ls, Return os)
    /\ loop_fault w = None
    /\ r = assembled ob os
    /\ get_binance_p2p_rate float_of_str w
       = (joined w lb ls ++ report r, Return (Some r)).
Proof.
  intros H. destruct (rate_inversion float_of_str w r H) as [ob [os [Hb [Hs [Hf ->]]]]].
  destruct (fetch_trade_type_average float_of_str w BUY) as [lb rb] eqn:Eb.
  destruct (fetch_trade_type_average float_of_str w SELL) as [ls rs] eqn:Es.
  unfold result in Hb, Hs. simpl in Hb, Hs. subst rb rs.
  exists lb, ls, ob, os. repeat split; try assumption.
  apply rate_of_averages_full; assumption.
Qed.

Lemma fetch_Raise (w : world) (t : trade_type) (e : exn) :
  result (fetch_trade_type_average float_of_str w t) = Raise e ->
  is_Exception e = false /\ net w default_timeout (request_of t) = Raise e.
Proof.
  rewrite fetch_unfold.
  destruct (net w default_timeout (request_of t)) as [data|e0] eqn:Hn; simpl.
  - destruct (average_of float_of_str (compensated_sum w) data) as [o|e1] eqn:Ha; simpl.
    + discriminate.
    + rewrite (average_of_exn float_of_str (compensated_sum w) data e1 Ha). discriminate.
  - destruct (is_Exception e0) eqn:He; simpl; intros H.
    + discriminate.
    + injection H as <-. split; [exact He | reflexivity].
Qed.

(** A task that raises makes [gather] raise, and the handler of the entry
    point lets the exception through: it is not of class [Exception]. *)
Lemma rate_of_task_raise (w : world) (lb ls : list line)
    (rb rs : outcome (option float)) :
  fetch_trade_type_average float_of_str w BUY = (lb, rb) ->
  fetch_trade_type_average float_of_str w SELL = (ls, rs) ->
  loop_fault w = None ->
  (exists e, rb = Raise e) \/ (exists e, rs = Raise e) ->
  exists l e t,
    get_binance_p2p_rate float_of_str w = (l, Raise e)
    /\ is_Exception e = false
    /\ net w default_timeout (request_of t) = Raise e
    /\ forall x, In x l -> In x lb \/ In x ls.
Proof.
  intros Hb Hs Hf Hr.
  assert (HB : forall e, rb = Raise e ->
                 is_Exception e = false
                 /\ net w default_timeout (request_of BUY) = Raise e).
  { intros e ->. apply (fetch_Raise w BUY). rewrite Hb. reflexivity. }
  assert (HS : forall e, rs = Raise e ->
                 is_Exception e = false
                 /\ net w default_timeout (request_of SELL) = Raise e).
  { intros e ->. apply (fetch_Raise w SELL). rewrite Hs. reflexivity. }
  unfold get_binance_p2p_rate, gather. rewrite Hb, Hs, Hf.
  destruct rb as [ob|eb], rs as [os|es].
  - destruct Hr as [[e H]|[e H]]; discriminate.
  - destruct (HS es eq_refl) as [He Hn].
    destruct (sell_first w); simpl; rewrite He.
    + exists ls, es, SELL. repeat split; auto.
    + exists (lb ++ ls), es, SELL. repeat split; auto.
      intros x Hx. apply in_app_or. exact Hx.
  - destruct (HB eb eq_refl) as [He Hn].
    destruct (sell_first w); simpl; rewrite He.
    + exists (ls ++ lb), eb, BUY. repeat split; auto.
      intros x Hx. apply in_app_or in Hx. tauto.
    + exists lb, eb, BUY. repeat split; auto.
  - destruct (HB eb eq_refl) as [Heb Hnb]. destruct (HS es eq_refl) as [Hes Hns].
    destruct (sell_first w); simpl.
    + rewrite Hes. exists ls, es, SELL. repeat split; auto.
    + rewrite Heb. exists lb, eb, BUY. repeat split; auto.
Qed.

Lemma rate_of_fault_base (w : world) (lb ls : list line)
    (rb rs : outcome (option float)) (e : exn) :
  fetch_trade_type_average float_of_str w BUY = (lb, rb) ->
  fetch_trade_type_average float_of_str w SELL = (ls, rs) ->
  loop_fault w = Some e ->
  is_Exception e = false ->
  get_binance_p2p_rate float_of_str w = (joined w lb ls, Raise e).
Proof.
  intros Hb Hs Hf He. unfold get_binance_p2p_rate, gather.
  rewrite Hb, Hs, Hf. simpl. rewrite He. reflexivity.
Qed.

Lemma In_fetch_line (w : world) (t : trade_type) (l : line) :
  In l (printed (fetch_trade_type_average float_of_str w t)) ->
  is_fetch_line l = true.
Proof.
  intros H. pose proof (fetch_prints_errors_only w t) as Hall.
  rewrite forallb_forall in Hall. apply Hall. exact H.
Qed.

Lemma omap_In_Raise {A B : Type} (f : A -> outcome B) (l : list A) (a : A) (e : exn) :
  In a l -> f a = Raise e -> exists e', omap f l = Raise e'.
Proof.
  induction l as [|x l IH]; simpl; intros Hin Ha.
  - contradiction.
  - destruct (f x) as [b|e0] eqn:Hx; simpl.
    + destruct Hin as [-> | Hin]; [congruence|].
      destruct (IH Hin Ha) as [e' ->]. simpl. exists e'. reflexivity.
    + exists e0. reflexivity.
Qed.

(** X1. When both directional averages are present and not zero, the entry
    point prints the three averages and returns the full record: the two
    averages and their half-sum, each rounded to two decimals. *)
Theorem full_record_and_report (w : world) (b s : float) :
  loop_fault w = None ->
  result (fetch_trade_type_average float_of_str w BUY) = Return (Some b) ->
  result (fetch_trade_type_average float_of_str w SELL) = Return (Some s) ->
  truthy_float b = true ->
  truthy_float s = true ->
  get_binance_p2p_rate float_of_str w
  = ([PromedioCompra (Some (py_round b 2));
      PromedioVenta (Some (py_round s 2));
      PromedioMercado (Some (py_round (PrimFloat.div (PrimFloat.add b s) 2) 2))],
     Return (Some {| buy := Some (py_round b 2);
                     sell := Some (py_round s 2);
                     average := Some (py_round (PrimFloat.div (PrimFloat.add b s) 2) 2) |})).
Proof.
  intros Hf Hb Hs Tb Ts.
  apply fetch_Some_silent in Hb. apply fetch_Some_silent in Hs.
  rewrite (rate_of_averages_full w [] [] (Some b) (Some s) Hb Hs Hf).
  rewrite joined_nil. unfold assembled, report. rewrite Tb, Ts. reflexivity.
Qed.

(** X2. Each directional field of the record comes from its own direction
    alone: it is the average that direction returned, rounded to two
    decimals, and it is absent when the direction returned nothing or
    zero. *)
Theorem each_field_from_its_direction (w : world) (r : rate_result)
    (t : trade_type) (o : option float) :
  result (get_binance_p2p_rate float_of_str w) = Return (Some r) ->
  result (fetch_trade_type_average float_of_str w t) = Return o ->
  field t r = match o with
              | Some a => if truthy_float a then Some (py_round a 2) else None
              | None => None
              end.
Proof.
  intros Hr Ho. apply rate_inversion in Hr.
  destruct Hr as [ob [os [Hb [Hs [_ ->]]]]].
  destruct t; simpl.
  - rewrite Ho in Hb. injection Hb as <-. apply assembled_buy.
  - rewrite Ho in Hs. injection Hs as <-. apply assembled_sell.
Qed.

(** X3. When the request of one direction fails with an exception of class
    [Exception], the error is printed with the direction, and the record
    has neither the field of that direction nor the market average. *)
Theorem failed_direction_is_absent (w : world) (t : trade_type) (e : exn)
    (r : rate_result) :
  net w default_timeout (request_of t) = Raise e ->
  is_Exception e = true ->
  result (get_binance_p2p_rate float_of_str w) = Return (Some r) ->
  field t r = None
  /\ average r = None
  /\ In (ErrorTasa t e) (printed (get_binance_p2p_rate float_of_str w)).
Proof.
  intros Hn He Hr.
  assert (Hft : fetch_trade_type_average float_of_str w t
                = ([ErrorTasa t e], Return None)).
  { rewrite fetch_unfold, Hn. simpl. rewrite He. reflexivity. }
  destruct (rate_inversion_full w r Hr) as [lb [ls [ob [os [Hb [Hs [Hf [-> Hget]]]]]]]].
  rewrite Hget. unfold printed. simpl.
  destruct t; simpl.
  - rewrite Hft in Hb. injection Hb as <- <-.
    rewrite assembled_buy, assembled_average.
    repeat split. apply in_or_app. left. apply In_joined.
    left. left. reflexivity.
  - rewrite Hft in Hs. injection Hs as <- <-.
    rewrite assembled_sell, assembled_average.
    repeat split.
    + destruct ob; reflexivity.
    + apply in_or_app. left. apply In_joined. right. left. reflexivity.
Qed.

(** X4. An exception outside the class [Exception] (a cancellation, for
    example) raised by a request is swallowed nowhere: the entry point and
    [main] raise it, when the loop itself raises nothing. *)
Theorem cancellation_propagates (w : world) (t : trade_type) (e : exn) :
  net w default_timeout (request_of t) = Raise e ->
  is_Exception e = false ->
  loop_fault w = None ->
  exists e' t',
    net w default_timeout (request_of t') = Raise e'
    /\ is_Exception e' = false
    /\ result (get_binance_p2p_rate float_of_str w) = Raise e'
    /\ result (main float_of_str w) = Raise e'.
Proof.
  intros Hn He Hf.
  assert (Hft : result (fetch_trade_type_average float_of_str w t) = Raise e).
  { rewrite fetch_unfold, Hn. simpl. rewrite He. reflexivity. }
  destruct (fetch_trade_type_average float_of_str w BUY) as [lb rb] eqn:Hb.
  destruct (fetch_trade_type_average float_of_str w SELL) as [ls rs] eqn:Hs.
  assert (Hr : (exists e0, rb = Raise e0) \/ (exists e0, rs = Raise e0)).
  { destruct t; [rewrite Hb in Hft | rewrite Hs in Hft];
      unfold result in Hft; simpl in Hft; [left | right]; exists e; exact Hft. }
  destruct (rate_of_task_raise w lb ls rb rs Hb Hs Hf Hr)
    as [l [e' [t' [Hget [He' [Hn' _]]]]]].
  exists e', t'. split; [exact Hn'|]. split; [exact He'|].
  split.
  - rewrite Hget. reflexivity.
  - unfold main. rewrite Hget. reflexivity.
Qed.

(** X5. A response that fails the test is turned down without a word; a
    response that is no JSON object is an error of the fetch, printed with
    the direction. Both give no average. *)
Theorem rejection_logging (w : world) (t : trade_type) (data : value) :
  net w default_timeout (request_of t) = Return data ->
  (validated data = Return false ->
   fetch_trade_type_average float_of_str w t = ([], Return None))
  /\ ((forall d, data <> VDict d) ->
      fetch_trade_type_average float_of_str w t
      = ([ErrorTasa t AttributeError], Return None)).
Proof.
  intros Hn. split.
  - intros Hv. rewrite fetch_unfold, Hn. simpl.
    rewrite average_of_validated, Hv. reflexivity.
  - intros Hd. rewrite fetch_unfold, Hn. simpl.
    destruct data; try reflexivity.
    exfalso. apply (Hd d). reflexivity.
Qed.

(** X6. One advertisement without a usable price discards the whole
    direction: the fetch prints one error and returns nothing, whatever the
    other advertisements hold. *)
Theorem malformed_ad_discards_direction (w : world) (t : trade_type)
    (data : value) (ads : list value) (bad : value) (e : exn) :
  net w default_timeout (request_of t) = Return data ->
  accepted data ads ->
  In bad ads ->
  price_of float_of_str bad = Raise e ->
  exists e', fetch_trade_type_average float_of_str w t
             = ([ErrorTasa t e'], Return None).
Proof.
  intros Hn Hacc Hin Hbad.
  destruct (omap_In_Raise (price_of float_of_str) ads bad e Hin Hbad) as [e' Hm].
  assert (Ha : average_of float_of_str (compensated_sum w) data = Raise e').
  { rewrite average_of_validated, (accepted_validated data ads Hacc). simpl.
    destruct Hacc as [d [-> [_ [Hd _]]]].
    unfold prices_of, subscript. rewrite Hd. simpl. rewrite Hm. reflexivity. }
  exists e'. rewrite fetch_unfold, Hn. simpl. rewrite Ha.
  rewrite (average_of_exn float_of_str (compensated_sum w) data e' Ha). reflexivity.
Qed.

(** X7. Whichever of the two tasks completes first, the entry point
    returns the same value, when it returns one, and prints the same lines
    up to their order. *)
Theorem completion_order_is_immaterial (w w' : world) (r : option rate_result) :
  (forall t, net w default_timeout (request_of t)
             = net w' default_timeout (request_of t)) ->
  loop_fault w = loop_fault w' ->
  compensated_sum w = compensated_sum w' ->
  result (get_binance_p2p_rate float_of_str w) = Return r ->
  result (get_binance_p2p_rate float_of_str w') = Return r
  /\ Permutation (printed (get_binance_p2p_rate float_of_str w))
                 (printed (get_binance_p2p_rate float_of_str w')).
Proof.
  intros Hn Hf Hc Hr.
  assert (Hfetch : forall t, fetch_trade_type_average float_of_str w' t
                             = fetch_trade_type_average float_of_str w t).
  { intros t. rewrite !fetch_unfold, (Hn t), Hc. reflexivity. }
  destruct (fetch_trade_type_average float_of_str w BUY) as [lb rb] eqn:Hb.
  destruct (fetch_trade_type_average float_of_str w SELL) as [ls rs] eqn:Hs.
  pose proof (Hfetch BUY) as Hb'. rewrite Hb in Hb'.
  pose proof (Hfetch SELL) as Hs'. rewrite Hs in Hs'.
  destruct (loop_fault w) as [e|] eqn:Hfw.
  - symmetry in Hf. destruct (is_Exception e) eqn:He.
    + rewrite (rate_of_fault float_of_str w lb ls rb rs e Hb Hs Hfw He) in Hr |- *.
      rewrite (rate_of_fault float_of_str w' lb ls rb rs e Hb' Hs' Hf He).
      split; [exact Hr|]. unfold printed. simpl.
      apply Permutation_app_tail. apply Permutation_joined.
    + rewrite (rate_of_fault_base w lb ls rb rs e Hb Hs Hfw He) in Hr. discriminate.
  - symmetry in Hf. destruct rb as [ob|eb], rs as [os|es].
    + rewrite (rate_of_averages_full w lb ls ob os Hb Hs Hfw) in Hr |- *.
      rewrite (rate_of_averages_full w' lb ls ob os Hb' Hs' Hf).
      split; [exact Hr|]. unfold printed. simpl.
      apply Permutation_app_tail. apply Permutation_joined.
    + destruct (rate_of_task_raise w lb ls (Return ob) (Raise es) Hb Hs Hfw)
        as [l [e [t [Hget _]]]]; [right; exists es; reflexivity|].
      rewrite Hget in Hr. discriminate.
    + destruct (rate_of_task_raise w lb ls (Raise eb) (Return os) Hb Hs Hfw)
        as [l [e [t [Hget _]]]]; [left; exists eb; reflexivity|].
      rewrite Hget in Hr. discriminate.
    + destruct (rate_of_task_raise w lb ls (Raise eb) (Raise es) Hb Hs Hfw)
        as [l [e [t [Hget _]]]]; [left; exists eb; reflexivity|].
      rewrite Hget in Hr. discriminate.
Qed.

(** X9. With a record returned, the note that the market average could not
    be computed is printed exactly when the record has no market average. *)
Theorem missing_note_iff_no_average (w : world) (r : rate_result) :
  result (get_binance_p2p_rate float_of_str w) = Return (Some r) ->
  (In SinPromedio (printed (get_binance_p2p_rate float_of_str w))
   <-> average r = None).
Proof.
  intros Hr.
  destruct (rate_inversion_full w r Hr) as [lb [ls [ob [os [Hb [Hs [_ [_ Hget]]]]]]]].
  rewrite Hget. unfold printed. simpl.
  assert (Hlb : ~ In SinPromedio lb).
  { intros H. assert (X : is_fetch_line SinPromedio = true).
    { apply (In_fetch_line w BUY). rewrite Hb. exact H. }
    discriminate. }
  assert (Hls : ~ In SinPromedio ls).
  { intros H. assert (X : is_fetch_line SinPromedio = true).
    { apply (In_fetch_line w SELL). rewrite Hs. exact H. }
    discriminate. }
  split.
  - intros H. apply in_app_or in H. destruct H as [H|H].
    { apply In_joined in H. destruct H as [H|H]; contradiction. }
    unfold report in H. destruct (average r) as [a|]; [|reflexivity].
    simpl in H. destruct H as [H|[H|[H|[]]]]; discriminate.
  - intros Ha. apply in_or_app. right.
    unfold report. rewrite Ha.
    apply in_or_app. right. apply in_or_app. right. left. reflexivity.
Qed.

Lemma truthy_opt_present (x : option float) : truthy_opt x = true -> x <> None.
Proof. destruct x; [discriminate | intros H; discriminate H]. Qed.

Lemma assembled_full (ob os : option float) (a : float) :
  average (assembled ob os) = Some a ->
  buy (assembled ob os) <> None /\ sell (assembled ob os) <> None.
Proof.
  rewrite assembled_average, assembled_buy, assembled_sell.
  destruct ob as [b|], os as [s|]; try discriminate.
  destruct (truthy_float b), (truthy_float s); try discriminate.
  intros _. split; discriminate.
Qed.

Lemma report_lines (r : rate_result) (x : option float) :
  (forall a, average r = Some a -> buy r <> None /\ sell r <> None) ->
  (In (PromedioCompra x) (report r) -> x = buy r /\ x <> None)
  /\ (In (PromedioVenta x) (report r) -> x = sell r /\ x <> None)
  /\ (In (PromedioMercado x) (report r) -> x = average r /\ x <> None).
Proof.
  intros Hfull. unfold report.
  destruct (average r) as [a|] eqn:Ha.
  - destruct (Hfull a eq_refl) as [Hbuy Hsell].
    split; [|split]; intros H; simpl in H;
      destruct H as [H|[H|[H|[]]]]; try discriminate;
      injection H as <-; split; try reflexivity; try assumption.
    discriminate.
  - split; [|split]; intros H;
      destruct (truthy_opt (buy r)) eqn:Tb, (truthy_opt (sell r)) eqn:Ts;
      simpl in H;
      repeat match type of H with
             | _ \/ _ => destruct H as [H|H]
             | False => contradiction
             end;
      try discriminate;
      injection H as <-; split; try reflexivity;
      apply truthy_opt_present; assumption.
Qed.

(** X10. Every average printed by the entry point is a field of the record
    it returns: the buy line carries the buy field, the sell line the sell
    field, the market line the market average, and none is printed for an
    absent field. *)
Theorem printed_averages_are_fields (w : world) (r : rate_result) (x : option float) :
  result (get_binance_p2p_rate float_of_str w) = Return (Some r) ->
  (In (PromedioCompra x) (printed (get_binance_p2p_rate float_of_str w)) ->
   x = buy r /\ x <> None)
  /\ (In (PromedioVenta x) (printed (get_binance_p2p_rate float_of_str w)) ->
      x = sell r /\ x <> None)
  /\ (In (PromedioMercado x) (printed (get_binance_p2p_rate float_of_str w)) ->
      x = average r /\ x <> None).
Proof.
  intros Hr.
  destruct (rate_inversion_full w r Hr) as [lb [ls [ob [os [Hb [Hs [_ [Hr' Hget]]]]]]]].
  rewrite Hget. unfold printed. simpl.
  assert (Hskip : forall l, is_fetch_line l = false ->
                            In l (joined w lb ls ++ report r) -> In l (report r)).
  { intros l Hl H. apply in_app_or in H. destruct H as [H|H]; [|exact H].
    apply In_joined in H. destruct H as [H|H].
    - assert (X : is_fetch_line l = true).
      { apply (In_fetch_line w BUY). rewrite Hb. exact H. }
      congruence.
    - assert (X : is_fetch_line l = true).
      { apply (In_fetch_line w SELL). rewrite Hs. exact H. }
      congruence. }
  assert (Hfull : forall a, average r = Some a -> buy r <> None /\ sell r <> None).
  { subst r. apply assembled_full. }
  destruct (report_lines r x Hfull) as [H1 [H2 H3]].
  split; [|split]; intros H; apply Hskip in H; try reflexivity; auto.
Qed.

Lemma report_rate_lines (r : rate_result) :
  forallb is_rate_line (report r) = true.
Proof.
  unfold report. destruct (average r); [reflexivity|].
  destruct (truthy_opt (buy r)), (truthy_opt (sell r)); reflexivity.
Qed.

Lemma fetch_rate_lines (w : world) (t : trade_type) :
  forallb is_rate_line (printed (fetch_trade_type_average float_of_str w t)) = true.
Proof.
  rewrite fetch_unfold.
  destruct (obind (net w default_timeout (request_of t)) (average_of float_of_str (compensated_sum w)))
    as [o|e]; [reflexivity|].
  destruct (is_Exception e); reflexivity.
Qed.

Lemma rate_prints (w : world) :
  forallb is_rate_line (printed (get_binance_p2p_rate float_of_str w)) = true.
Proof.
  pose proof (fetch_rate_lines w BUY) as Pb.
  pose proof (fetch_rate_lines w SELL) as Ps.
  destruct (fetch_trade_type_average float_of_str w BUY) as [lb rb] eqn:Hb.
  destruct (fetch_trade_type_average float_of_str w SELL) as [ls rs] eqn:Hs.
  unfold printed in Pb, Ps. simpl in Pb, Ps.
  destruct (loop_fault w) as [e|] eqn:Hf.
  - destruct (is_Exception e) eqn:He.
    + rewrite (rate_of_fault float_of_str w lb ls rb rs e Hb Hs Hf He).
      unfold printed. simpl. rewrite forallb_app, forallb_joined, Pb, Ps. reflexivity.
    + rewrite (rate_of_fault_base w lb ls rb rs e Hb Hs Hf He).
      unfold printed. simpl. rewrite forallb_joined, Pb, Ps. reflexivity.
  - assert (Hraise : (exists e, rb = Raise e) \/ (exists e, rs = Raise e) ->
                     forallb is_rate_line
                       (printed (get_binance_p2p_rate float_of_str w)) = true).
    { intros Hr.
      destruct (rate_of_task_raise w lb ls rb rs Hb Hs Hf Hr)
        as [l [e [t [Hget [_ [_ Hl]]]]]].
      rewrite Hget. unfold printed. simpl. apply forallb_forall.
      intros x Hx. rewrite forallb_forall in Pb, Ps.
      destruct (Hl x Hx); auto. }
    destruct rb as [ob|eb], rs as [os|es].
    + rewrite (rate_of_averages_full w lb ls ob os Hb Hs Hf).
      unfold printed. simpl.
      rewrite forallb_app, forallb_joined, Pb, Ps, report_rate_lines. reflexivity.
    + apply Hraise. right. exists es. reflexivity.
    + apply Hraise. left. exists eb. reflexivity.
    + apply Hraise. left. exists eb. reflexivity.
Qed.

(** X11. When the entry point returns, [main] returns as well; it prints
    the notice of failure exactly when the result is absent, and it dumps
    the result, and nothing else, exactly when the result is a record. *)
Theorem main_reports (w : world) (r : option rate_result) :
  result (get_binance_p2p_rate float_of_str w) = Return r ->
  result (main float_of_str w) = Return tt
  /\ (In NoSePudieron (printed (main float_of_str w)) <-> r = None)
  /\ (forall d, In (Dump d) (printed (main float_of_str w)) <-> d = r /\ r <> None).
Proof.
  intros Hr. pose proof (rate_prints w) as Hp.
  destruct (get_binance_p2p_rate float_of_str w) as [l o] eqn:Hg.
  unfold result in Hr. simpl in Hr. subst o.
  unfold printed in Hp. simpl in Hp. rewrite forallb_forall in Hp.
  assert (Hno : forall x, is_rate_line x = false -> ~ In x l).
  { intros x Hx Hin. rewrite (Hp x Hin) in Hx. discriminate. }
  unfold main. rewrite Hg. destruct r as [d0|]; simpl.
  - split; [reflexivity|]. split.
    + split; [|discriminate]. intros [H|H]; [discriminate|].
      apply in_app_or in H. destruct H as [H|H].
      * exfalso. exact (Hno NoSePudieron eq_refl H).
      * simpl in H. destruct H as [H|[H|[]]]; discriminate.
    + intros d. split.
      * intros [H|H]; [discriminate|].
        apply in_app_or in H. destruct H as [H|H].
        -- exfalso. exact (Hno (Dump d) eq_refl H).
        -- simpl in H. destruct H as [H|[H|[]]]; [discriminate|].
           injection H as <-. split; [reflexivity | discriminate].
      * intros [-> _]. right. apply in_or_app. right. right. left. reflexivity.
  - split; [reflexivity|]. split.
    + split; [reflexivity|]. intros _. right. apply in_or_app. right. left. reflexivity.
    + intros d. split.
      * intros [H|H]; [discriminate|].
        apply in_app_or in H. destruct H as [H|H].
        -- exfalso. exact (Hno (Dump d) eq_refl H).
        -- simpl in H. destruct H as [H|[]]. discriminate.
      * intros [_ H]. contradiction.
Qed.

End Behaviour.

(** ** The further properties at the scenarios *)

Lemma full_record_and_report_witness :
  loop_fault scenario_A = None
  /\ truthy_float 36.5%float = true
  /\ truthy_float 36.849999999999994%float = true
  /\ get_binance_p2p_rate decimal_float_of_str scenario_A
     = ([PromedioCompra (Some (py_round 36.5%float 2));
         PromedioVenta (Some (py_round 36.849999999999994%float 2));
         PromedioMercado
           (Some (py_round (PrimFloat.div
                              (PrimFloat.add 36.5%float 36.849999999999994%float) 2) 2))],
        Return (Some {| buy := Some (py_round 36.5%float 2);
                        sell := Some (py_round 36.849999999999994%float 2);
                        average :=
                          Some (py_round (PrimFloat.div
                                  (PrimFloat.add 36.5%float 36.849999999999994%float) 2)
                                  2) |})).
Proof.
  split; [reflexivity|]. split; [vm_compute; reflexivity|].
  split; [vm_compute; reflexivity|].
  apply (full_record_and_report decimal_float_of_str scenario_A).
  - reflexivity.
  - vm_compute. reflexivity.
  - vm_compute. reflexivity.
  - vm_compute. reflexivity.
  - vm_compute. reflexivity.
Defined.

Lemma each_field_from_its_direction_witness :
  result (get_binance_p2p_rate decimal_float_of_str scenario_B)
  = Return (Some {| buy := None; sell := Some 37%float; average := None |})
  /\ result (fetch_trade_type_average decimal_float_of_str scenario_B SELL)
     = Return (Some 37%float)
  /\ field SELL {| buy := None; sell := Some 37%float; average := None |}
     = if truthy_float 37%float then Some (py_round 37%float 2) else None.
Proof.
  split; [vm_compute; reflexivity|]. split; [vm_compute; reflexivity|].
  apply (each_field_from_its_direction decimal_float_of_str scenario_B
           {| buy := None; sell := Some 37%float; average := None |}
           SELL (Some 37%float)).
  - vm_compute. reflexivity.
  - vm_compute. reflexivity.
Defined.

Lemma failed_direction_is_absent_witness :
  net scenario_B default_timeout (request_of BUY) = Raise TimeoutError
  /\ is_Exception TimeoutError = true
  /\ field BUY {| buy := None; sell := Some 37%float; average := None |} = None
  /\ average {| buy := None; sell := Some 37%float; average := None |} = None
  /\ In (ErrorTasa BUY TimeoutError)
        (printed (get_binance_p2p_rate decimal_float_of_str scenario_B)).
Proof.
  split; [vm_compute; reflexivity|]. split; [reflexivity|].
  apply (failed_direction_is_absent decimal_float_of_str scenario_B BUY TimeoutError
           {| buy := None; sell := Some 37%float; average := None |}).
  - vm_compute. reflexivity.
  - reflexivity.
  - vm_compute. reflexivity.
Defined.

Lemma cancellation_propagates_witness :
  net cancelled_buy default_timeout (request_of BUY) = Raise CancelledError
  /\ is_Exception CancelledError = false
  /\ loop_fault cancelled_buy = None
  /\ exists e' t',
       net cancelled_buy default_timeout (request_of t') = Raise e'
       /\ is_Exception e' = false
       /\ result (get_binance_p2p_rate decimal_float_of_str cancelled_buy) = Raise e'
       /\ result (main decimal_float_of_str cancelled_buy) = Raise e'.
Proof.
  split; [vm_compute; reflexivity|]. split; [reflexivity|]. split; [reflexivity|].
  apply (cancellation_propagates decimal_float_of_str cancelled_buy BUY CancelledError).
  - vm_compute. reflexivity.
  - reflexivity.
  - reflexivity.
Defined.

Lemma rejection_logging_witness :
  net scenario_C default_timeout (request_of BUY) = Return (response [])
  /\ validated (response []) = Return false
  /\ fetch_trade_type_average decimal_float_of_str scenario_C BUY = ([], Return None).
Proof.
  split; [vm_compute; reflexivity|]. split; [vm_compute; reflexivity|].
  apply (rejection_logging decimal_float_of_str scenario_C BUY (response [])).
  - vm_compute. reflexivity.
  - vm_compute. reflexivity.
Defined.

Lemma malformed_ad_discards_direction_witness :
  net (world_of (Return one_bad_ad) (Return one_bad_ad) None)
      default_timeout (request_of BUY) = Return one_bad_ad
  /\ price_of decimal_float_of_str (VDict [("adv", VDict [])]%string) = Raise KeyError
  /\ exists e',
       fetch_trade_type_average decimal_float_of_str
         (world_of (Return one_bad_ad) (Return one_bad_ad) None) BUY
       = ([ErrorTasa BUY e'], Return None).
Proof.
  split; [vm_compute; reflexivity|]. split; [vm_compute; reflexivity|].
  apply (malformed_ad_discards_direction decimal_float_of_str
           (world_of (Return one_bad_ad) (Return one_bad_ad) None) BUY one_bad_ad
           [ad (VStr "36.50"); VDict [("adv", VDict [])]]%string
           (VDict [("adv", VDict [])]%string) KeyError).
  - vm_compute. reflexivity.
  - eexists. split; [reflexivity|]. split; [left; reflexivity|].
    split; [reflexivity | discriminate].
  - right. left. reflexivity.
  - vm_compute. reflexivity.
Defined.

Lemma completion_order_is_immaterial_witness :
  get_binance_p2p_rate decimal_float_of_str both_fail
  = ([ErrorTasa BUY TimeoutError; ErrorTasa SELL ClientError; SinPromedio],
     Return (Some {| buy := None; sell := None; average := None |}))
  /\ printed (get_binance_p2p_rate decimal_float_of_str (with_sell_first both_fail))
     = [ErrorTasa SELL ClientError; ErrorTasa BUY TimeoutError; SinPromedio]
  /\ result (get_binance_p2p_rate decimal_float_of_str (with_sell_first both_fail))
     = Return (Some {| buy := None; sell := None; average := None |})
  /\ Permutation
       (printed (get_binance_p2p_rate decimal_float_of_str both_fail))
       (printed (get_binance_p2p_rate decimal_float_of_str
                   (with_sell_first both_fail))).
Proof.
  split; [vm_compute; reflexivity|]. split; [vm_compute; reflexivity|].
  apply (completion_order_is_immaterial decimal_float_of_str both_fail
           (with_sell_first both_fail)).
  - intros t. reflexivity.
  - reflexivity.
  - reflexivity.
  - vm_compute. reflexivity.
Defined.

Lemma missing_note_iff_no_average_witness :
  result (get_binance_p2p_rate decimal_float_of_str scenario_C)
  = Return (Some {| buy := None; sell := None; average := None |})
  /\ (In SinPromedio (printed (get_binance_p2p_rate decimal_float_of_str scenario_C))
      <-> average {| buy := None; sell := None; average := None |} = None).
Proof.
  split; [vm_compute; reflexivity|].
  apply (missing_note_iff_no_average decimal_float_of_str scenario_C).
  vm_compute. reflexivity.
Defined.

Lemma printed_averages_are_fields_witness :
  result (get_binance_p2p_rate decimal_float_of_str scenario_B)
  = Return (Some {| buy := None; sell := Some 37%float; average := None |})
  /\ (In (PromedioVenta (Some 37%float))
         (printed (get_binance_p2p_rate decimal_float_of_str scenario_B)) ->
      Some 37%float = sell {| buy := None; sell := Some 37%float; average := None |}
      /\ Some 37%float <> None).
Proof.
  split; [vm_compute; reflexivity|].
  apply (printed_averages_are_fields decimal_float_of_str scenario_B
           {| buy := None; sell := Some 37%float; average := None |} (Some 37%float)).
  vm_compute. reflexivity.
Defined.

Lemma main_reports_witness :
  result (get_binance_p2p_rate decimal_float_of_str scenario_D) = Return None
  /\ result (main decimal_float_of_str scenario_D) = Return tt
  /\ (In NoSePudieron (printed (main decimal_float_of_str scenario_D))
      <-> @None rate_result = None)
  /\ (forall d, In (Dump d) (printed (main decimal_float_of_str scenario_D))
                <-> d = None /\ @None rate_result <> None).
Proof.
  split; [vm_compute; reflexivity|].
  apply (main_reports decimal_float_of_str scenario_D None).
  vm_compute. reflexivity.
Defined.
